(** * devcontainer-generator: the generation pipeline

    A shallow embedding of [helpers/devcontainer_helpers.py] and
    [helpers/llm_provider.py]: the token budgeter ([truncate_context]), the
    provider selector ([LLMProviderManager]), the schema validator
    ([validate_devcontainer_json]) and the generation orchestrator
    ([generate_devcontainer_json]).

    Python [str] values are sequences of characters; a character is modelled
    by an 8-bit [ascii] code point.  The libraries the code calls into
    (tiktoken, json, jsonschema, the instructor client, the template engine)
    are interfaces whose operations are parameters of the development. *)

From Stdlib Require Import ZArith QArith Ascii String List Lia Bool.
From stdpp Require Import base tactics option list strings gmap pretty.

Local Open Scope Z_scope.

(** ** Python strings *)

Abbreviation str := (list ascii).

(** A string literal of the source. *)
Definition lit (s : string) : str := list_ascii_of_string s.
Arguments lit s%_string.

(** [len(s)] *)
Definition len {A} (l : list A) : Z := Z.of_nat (length l).

Definition str_eqb (a b : str) : bool := bool_decide (a = b).

(** Truth value of a [str]: the empty string is false. *)
Definition truthy (s : str) : bool :=
  match s with [] => false | _ :: _ => true end.

(** Truth value of an optional [str]: [None] and the empty string are
    false. *)
Definition truthy_opt (o : option str) : bool :=
  match o with None => false | Some s => truthy s end.

(** The stop (or start) position of a slice [l[:k]] ([l[k:]]) of a sequence
    of length [n]: a negative index counts from the end, and every index is
    clamped to [0..n]. *)
Definition slice_index (n : nat) (k : Z) : nat :=
  if k <? 0 then Z.to_nat (Z.max 0 (Z.of_nat n + k))
  else Z.to_nat (Z.min k (Z.of_nat n)).

(** [l[:k]] *)
Definition slice_to {A} (l : list A) (k : Z) : list A :=
  take (slice_index (length l) k) l.

(** [l[k:]] *)
Definition slice_from {A} (l : list A) (k : Z) : list A :=
  drop (slice_index (length l) k) l.

(** [s.startswith(p)] *)
Fixpoint startswith (p s : str) : bool :=
  match p, s with
  | [], _ => true
  | _ :: _, [] => false
  | a :: p', b :: s' => Ascii.eqb a b && startswith p' s'
  end.

(** Position of the first occurrence of [sub] in [s]. *)
Fixpoint find_nat (sub s : str) : option nat :=
  if startswith sub s then Some 0%nat
  else match s with
       | [] => None
       | _ :: s' => S <$> find_nat sub s'
       end.

(** [s.find(sub)]: the lowest index of [sub] in [s], or [-1]. *)
Definition py_find (s sub : str) : Z :=
  match find_nat sub s with
  | Some i => Z.of_nat i
  | None => -1
  end.

(** [sub in s] *)
Definition py_in (sub s : str) : bool :=
  match find_nat sub s with Some _ => true | None => false end.

(** [s.split(sep)] for a non-empty separator: cut at each occurrence, left
    to right, occurrences not overlapping.  The recursion is bounded by the
    length of [s], which every cut decreases. *)
Fixpoint split_fuel (fuel : nat) (sep s : str) : list str :=
  match fuel with
  | O => [s]
  | S fuel' =>
      match find_nat sep s with
      | None => [s]
      | Some i => take i s :: split_fuel fuel' sep (drop (i + length sep) s)
      end
  end.

Definition py_split (s sep : str) : list str := split_fuel (length s) sep s.

(** [c.isspace()] for a character in the 8-bit range. *)
Definition is_space (c : ascii) : bool :=
  let n := nat_of_ascii c in
  ((9 <=? n) && (n <=? 13) || (28 <=? n) && (n <=? 32)
   || (n =? 133) || (n =? 160))%nat.

Fixpoint lstrip (s : str) : str :=
  match s with
  | [] => []
  | c :: s' => if is_space c then lstrip s' else s
  end.

Definition rstrip (s : str) : str := rev (lstrip (rev s)).

(** [s.strip()] *)
Definition strip (s : str) : str := rstrip (lstrip s).

(** [c.lower()] for a character in the 8-bit range: the letters A-Z and
    the accented capitals U+00C0..U+00DE (the sign U+00D7 apart). *)
Definition lower_char (c : ascii) : ascii :=
  let n := nat_of_ascii c in
  if ((65 <=? n) && (n <=? 90)
      || (192 <=? n) && (n <=? 222) && negb (n =? 215))%nat
  then ascii_of_nat (n + 32) else c.

(** [s.lower()] *)
Definition lower (s : str) : str := map lower_char s.

(** [sep.join(parts)] *)
Fixpoint join (sep : str) (parts : list str) : str :=
  match parts with
  | [] => []
  | [p] => p
  | p :: rest => p ++ sep ++ join sep rest
  end.

(** Decimal rendering of an integer, as an f-string does. *)
Definition show_Z (z : Z) : str := lit (pretty z).

(** ** Logging

    [logging.debug/info/warning/error] append a record to the log.  Functions
    that only compute and log return their value with the records they
    emitted, in order. *)

Inductive level := DEBUG | INFO | WARNING | ERROR.

Record log_record := LogRecord { lr_level : level; lr_msg : str }.

Definition Logged (A : Type) : Type := (A * list log_record)%type.

#[export] Instance Logged_ret : MRet Logged := λ A x, (x, []).
#[export] Instance Logged_bind : MBind Logged :=
  λ A B f m, ((f m.1).1, m.2 ++ (f m.1).2).

Definition logging (lv : level) (msg : str) : Logged unit :=
  (tt, [LogRecord lv msg]).

(** ** Token budgeter *)

(** The tokenizer [tiktoken.encoding_for_model("gpt-4o-mini")]: its token
    type, [encoding.encode] and [encoding.decode]. *)
Class Tokenizer := {
  token : Type;
  encode : str -> list token;
  decode : list token -> str;
}.

Definition STRUCTURE_MARK : str := lit "<<END_SECTION: Repository Structure >>".
Definition LANGUAGES_MARK : str := lit "<<END_SECTION: Repository Languages >>".
Definition LANGUAGES_MARK_NL : str :=
  LANGUAGES_MARK ++ [ascii_of_nat 10; ascii_of_nat 10].

Section TokenBudgeter.
Context {T : Tokenizer}.

Definition truncate_context (context : str) (max_tokens : Z) : Logged str :=
  logging INFO (lit "Starting truncate_context with max_tokens="
                  ++ show_Z max_tokens);;
  logging DEBUG (lit "Initial context length: " ++ show_Z (len context)
                   ++ lit " characters");;
  let tokens := encode context in
  logging INFO (lit "Initial token count: " ++ show_Z (len tokens));;
  if len tokens <=? max_tokens then
    logging INFO
      (lit "Context is already within token limit. No truncation needed.");;
    mret context
  else
    logging INFO (lit "Context size is " ++ show_Z (len tokens)
                    ++ lit " tokens. Truncation needed.");;
    let structure_end := py_find context STRUCTURE_MARK in
    let languages_end := py_find context LANGUAGES_MARK in
    logging DEBUG (lit "Structure end position: " ++ show_Z structure_end);;
    logging DEBUG (lit "Languages end position: " ++ show_Z languages_end);;
    let important_content :=
      slice_to context languages_end ++ LANGUAGES_MARK_NL in
    let remaining_content :=
      slice_from context (languages_end + len LANGUAGES_MARK_NL) in
    let important_tokens := encode important_content in
    logging DEBUG (lit "Important content token count: "
                     ++ show_Z (len important_tokens));;
    if len important_tokens >? max_tokens then
      logging WARNING
        (lit "Important content alone exceeds max_tokens. Truncating important content.");;
      let important_content := decode (slice_to important_tokens max_tokens) in
      mret important_content
    else
      let remaining_tokens := max_tokens - len important_tokens in
      logging INFO (lit "Tokens available for remaining content: "
                      ++ show_Z remaining_tokens);;
      let truncated_remaining :=
        decode (slice_to (encode remaining_content) remaining_tokens) in
      let final_context := important_content ++ truncated_remaining in
      let final_tokens := encode final_context in
      logging INFO (lit "Final token count: " ++ show_Z (len final_tokens));;
      logging DEBUG (lit "Final context length: "
                       ++ show_Z (len final_context) ++ lit " characters");;
      mret final_context.

(** The important content and the remaining content the budgeter splits an
    over-budget context into. *)
Definition important_content (context : str) : str :=
  slice_to context (py_find context LANGUAGES_MARK) ++ LANGUAGES_MARK_NL.

Definition remaining_content (context : str) : str :=
  slice_from context (py_find context LANGUAGES_MARK + len LANGUAGES_MARK_NL).

(** Token count of a text. *)
Definition ntokens (s : str) : Z := len (encode s).

End TokenBudgeter.

(** A tokenizer with one token per character. *)
Definition char_tokenizer : Tokenizer :=
  {| token := ascii; encode := fun s => s; decode := fun t => t |}.

(** The merged tokens of [merging_tokenizer], longest first. *)
Definition MERGES : list str :=
  [lit "rest"; [ascii_of_nat 10] ++ lit "re"].

(** Greedy encoding from the left: the first merged token the text starts
    with, else its first character.  Every token takes at least one
    character, so the length of the text bounds the recursion. *)
Fixpoint greedy_encode (fuel : nat) (s : str) : list str :=
  match fuel, s with
  | S fuel', c :: s' =>
      match List.find (fun w => startswith w s) MERGES with
      | Some w => w :: greedy_encode fuel' (drop (length w) s)
      | None => [c] :: greedy_encode fuel' s'
      end
  | _, _ => []
  end.

(** A tokenizer with merged tokens: a token is its text, decoding
    concatenates the texts.  As with byte-pair encodings, a text glued from
    two decoded token sequences need not encode to the two sequences. *)
Definition merging_tokenizer : Tokenizer :=
  {| token := str;
     encode := fun s => greedy_encode (length s) s;
     decode := fun t => concat t |}.

(** ** Provider selector ([LLMProviderManager]) *)

(** The process environment [os.environ]. *)
Abbreviation environ := (gmap str str).

Definition SUPPORTED_PROVIDERS : list str :=
  [lit "AzureOpenAI"; lit "OpenAI"; lit "Anthropic"; lit "Google"; lit "Groq"].

(** [x in l] for a list of strings. *)
Definition list_in (x : str) (l : list str) : bool := existsb (str_eqb x) l.

Definition get_provider (env : environ) : Logged str :=
  let provider := default (lit "AzureOpenAI") (env !! lit "LLM_PROVIDER") in
  if negb (list_in provider SUPPORTED_PROVIDERS) then
    logging WARNING (lit "Unsupported provider '" ++ provider
                       ++ lit "'. Defaulting to AzureOpenAI");;
    mret (lit "AzureOpenAI")
  else mret provider.

Definition get_required_env_vars (env : environ) : Logged (list str) :=
  provider ← get_provider env;
  let common_vars :=
    [lit "MODEL"; lit "GITHUB_TOKEN"; lit "SUPABASE_URL"; lit "SUPABASE_KEY";
     lit "LLM_PROVIDER"] in
  let provider_vars : gmap str (list str) :=
    list_to_map
      [(lit "AzureOpenAI",
        [lit "AZURE_OPENAI_ENDPOINT"; lit "AZURE_OPENAI_API_KEY";
         lit "AZURE_OPENAI_API_VERSION"]);
       (lit "OpenAI", [lit "OPENAI_API_KEY"]);
       (lit "Anthropic", [lit "ANTHROPIC_API_KEY"]);
       (lit "Google", [lit "GOOGLE_API_KEY"]);
       (lit "Groq", [lit "GROQ_API_KEY"])] in
  mret (common_vars ++ default [] (provider_vars !! provider)).

Definition supports_embeddings (env : environ) : Logged bool :=
  provider ← get_provider env;
  mret (list_in provider [lit "AzureOpenAI"; lit "OpenAI"]).

(** Valid models per provider (non-exhaustive, but common ones). *)
Definition valid_models : gmap str (list str) :=
  list_to_map
    [(lit "AzureOpenAI",
      [lit "gpt-4o"; lit "gpt-4o-mini"; lit "gpt-4-turbo"; lit "gpt-4";
       lit "gpt-35-turbo"; lit "gpt-3.5-turbo"]);
     (lit "OpenAI",
      [lit "gpt-4o"; lit "gpt-4o-mini"; lit "gpt-4-turbo"; lit "gpt-4";
       lit "gpt-3.5-turbo"]);
     (lit "Anthropic",
      [lit "claude-3-5-sonnet-20241022"; lit "claude-3-opus-20240229";
       lit "claude-3-sonnet-20240229"; lit "claude-3-haiku-20240307"]);
     (lit "Google",
      [lit "gemini-2.5-pro"; lit "gemini-2.0-flash"; lit "gemini-1.5-pro";
       lit "gemini-1.5-flash"; lit "gemini-pro"; lit "gemini-1.0-pro"]);
     (lit "Groq",
      [lit "llama-3.3-70b-versatile"; lit "llama-3.1-70b-versatile";
       lit "llama-3.1-8b-instant"; lit "mixtral-8x7b-32768";
       lit "gemma2-9b-it"])].

(** Returns [(is_valid, error_message)]. *)
Definition validate_model_for_provider (model provider : str) : bool * str :=
  let provider_models := default [] (valid_models !! provider) in
  match provider_models with
  | [] => (true, [])
  | _ :: _ =>
      if existsb (fun valid_model =>
                    py_in valid_model model || py_in model valid_model)
                 provider_models
      then (true, [])
      else (false,
            lit "Model '" ++ model
              ++ lit "' may not be compatible with provider '" ++ provider
              ++ lit "'. " ++ lit "Common models for " ++ provider ++ lit ": "
              ++ join (lit ", ") (slice_to provider_models 3))
  end.

(** Default models per provider. *)
Definition defaults : gmap str str :=
  list_to_map
    [(lit "AzureOpenAI", lit "gpt-4o-mini");
     (lit "OpenAI", lit "gpt-4o-mini");
     (lit "Anthropic", lit "claude-3-5-sonnet-20241022");
     (lit "Google", lit "gemini-1.5-pro");
     (lit "Groq", lit "llama-3.3-70b-versatile")].

Definition get_default_model (env : environ) : Logged str :=
  provider ← get_provider env;
  let model := env !! lit "MODEL" in
  let default_model := default (lit "gpt-4o-mini") (defaults !! provider) in
  if negb (truthy_opt model) then
    logging WARNING (lit "No MODEL specified in .env, using default for "
                       ++ provider ++ lit ": " ++ default_model);;
    mret default_model
  else
    let model := default [] model in
    let '(is_valid, error_msg) := validate_model_for_provider model provider in
    if negb is_valid then
      logging WARNING (lit "MODEL '" ++ model
                         ++ lit "' may not be compatible with provider '"
                         ++ provider ++ lit "'");;
      logging WARNING (lit "Auto-selecting default model: " ++ default_model);;
      logging WARNING
        (lit "To fix: Update MODEL in .env to a compatible model");;
      mret default_model
    else mret model.

(** The model the orchestrator passes to the provider call:
    [os.getenv("MODEL") or LLMProviderManager.get_default_model()].  The
    right operand is evaluated only when the left one is unset or empty. *)
Definition generation_model (env : environ) : Logged str :=
  match env !! lit "MODEL" with
  | Some m => if truthy m then mret m else get_default_model env
  | None => get_default_model env
  end.

(** ** Exceptions, provider calls and the orchestrator's monad *)

(** The exceptions of the pipeline, all subclasses of [Exception].  Each one
    carries [str(e)]; a [jsonschema] [ValidationError] also carries its
    [message] and the rendered [list(e.path)], [list(e.schema_path)] and
    [validator]. *)
Inductive exn :=
| AttributeError (msg : str)
| ValueError (msg : str)
| IndexError (msg : str)
| JSONDecodeError (msg : str)
| ValidationError (msg message path schema_path validator : str)
| OtherException (msg : str).

(** [str(e)] *)
Definition exn_str (e : exn) : str :=
  match e with
  | AttributeError msg | ValueError msg | IndexError msg
  | JSONDecodeError msg | ValidationError msg _ _ _ _
  | OtherException msg => msg
  end.

Inductive result (A : Type) :=
| Ok (a : A)
| Raise (e : exn).
Arguments Ok {A} a.
Arguments Raise {A} e.

(** The one response model of the pipeline, [schemas.DevContainerModel]. *)
Inductive response_model := DevContainerModel.

Record message := Message { role : str; content : str }.

(** Keyword arguments of [instructor_client.chat.completions.create]. *)
Record call_args := CallArgs {
  arg_model : str;
  arg_response_model : response_model;
  arg_temperature : option Q;
  arg_max_retries : Z;
  arg_messages : list message;
}.

(** The data handed to the prompt template. *)
Record template_data := TemplateData {
  td_repo_url : str;
  td_repo_context : str;
  td_existing_devcontainer : option str;
}.

(** The collaborators of the orchestrator and of the validator. *)
Class Externals := {
  (** the instructor client: its internal state, the objects it returns, and
      one call of [chat.completions.create] *)
  client_state : Type;
  response : Type;
  create : call_args -> client_state -> result response * client_state;
  (** [f"{type(instructor_client)}"] and [f"{dir(instructor_client)}"] *)
  client_type_repr : str;
  client_dir_repr : str;
  (** [json.dumps(response.dict(exclude_none=True), indent=2)] *)
  response_json : response -> str;
  (** [helpers.jinja_helper.process_template] *)
  process_template : str -> template_data -> str;
  (** [json.loads], the schema file [schemas/devContainer.base.schema.json]
      read with [open] and [json.load], and [jsonschema.validate] *)
  json_value : Type;
  json_loads : str -> result json_value;
  load_schema : result json_value;
  jsonschema_validate : json_value -> json_value -> result unit;
  (** [f"{list(parsed.keys())}"], which raises when [parsed] is no object,
      and [f"{parsed['image']}"] when ['image' in parsed] *)
  json_keys_repr : json_value -> result str;
  json_image_repr : json_value -> option str;
}.

Definition EXISTING_START : str := lit "<<EXISTING_DEVCONTAINER>>".
Definition EXISTING_END : str := lit "<<END_EXISTING_DEVCONTAINER>>".

Definition SYSTEM_PROMPT : str :=
  lit "You are a helpful assistant that generates valid, complete devcontainer.json files. Ensure all JSON is properly closed with matching braces.".

Definition TOOL_FAILURE_MSG : str :=
  lit "The LLM provider failed to generate valid structured output after multiple attempts. "
  ++ lit "This is a known limitation with some providers (especially Groq with complex schemas). "
  ++ lit "Recommendation: Switch to OpenAI or Anthropic for better reliability. "
  ++ lit "Run: ./switch_to_openai.sh".

Definition VALIDATION_FAILURE_MSG : str :=
  lit "Failed to generate valid devcontainer.json after maximum retries. "
  ++ lit "Check logs for validation errors. This may be due to the LLM provider's "
  ++ lit "capabilities with structured outputs.".

Definition EXHAUSTED_MSG : str :=
  lit "Failed to generate valid devcontainer.json after maximum retries".

(** [l[i]], raising [IndexError] out of range. *)
Definition py_index {A} (l : list A) (i : nat) : result A :=
  match l !! i with
  | Some x => Ok x
  | None => Raise (IndexError (lit "list index out of range"))
  end.

(** [repo_context.split(START)[1].split(END)[0].strip()] *)
Definition extract_existing (repo_context : str) : result str :=
  match py_index (py_split repo_context EXISTING_START) 1 with
  | Raise e => Raise e
  | Ok part =>
      match py_index (py_split part EXISTING_END) 0 with
      | Raise e => Raise e
      | Ok body => Ok (strip body)
      end
  end.

(** How the orchestrator classifies a failed provider call. *)
Definition is_tool_failure (error_msg : str) : bool :=
  py_in (lit "tool_use_failed") (lower error_msg)
  || py_in (lit "failed to call a function") (lower error_msg).

Definition is_temperature_failure (error_msg : str) : bool :=
  py_in (lit "does not support") (lower error_msg)
  || py_in (lit "temperature") (lower error_msg).

Section Orchestrator.
Context {T : Tokenizer} {E : Externals}.

(** One recorded provider invocation: its arguments and its outcome. *)
Definition invocation : Type := (call_args * result response)%type.

Record state := State {
  st_client : client_state;
  st_calls : list invocation;
  st_log : list log_record;
}.

(** Computations that log, call the provider and may raise; what was
    logged and called before an exception stays. *)
Definition M (A : Type) : Type := state -> result A * state.

#[global] Instance M_ret : MRet M := λ A x s, (Ok x, s).
#[global] Instance M_bind : MBind M := λ A B f m s,
  match m s with
  | (Ok a, s') => f a s'
  | (Raise e, s') => (Raise e, s')
  end.

Definition raise {A} (e : exn) : M A := λ s, (Raise e, s).

(** [try: body except Exception as e: handler e] *)
Definition try_except {A} (body : M A) (handler : exn -> M A) : M A := λ s,
  match body s with
  | (Ok a, s') => (Ok a, s')
  | (Raise e, s') => handler e s'
  end.

Definition of_result {A} (r : result A) : M A := λ s, (r, s).

Definition emit (records : list log_record) : M unit := λ s,
  (Ok tt, State (st_client s) (st_calls s) (st_log s ++ records)).

Definition log (lv : level) (msg : str) : M unit :=
  emit [LogRecord lv msg].

Definition logged {A} (m : Logged A) : M A :=
  emit m.2;; mret m.1.

(** One call [instructor_client.chat.completions.create(...)], recorded. *)
Definition call (args : call_args) : M response := λ s,
  let r := create args (st_client s) in
  (r.1, State r.2 (st_calls s ++ [(args, r.1)]) (st_log s)).

Definition validate_devcontainer_json (devcontainer_json : str) : M bool :=
  log INFO (lit "Validating devcontainer.json...");;
  schema ← of_result load_schema;
  try_except
    (log DEBUG (lit "Running validation...");;
     parsed_json ← of_result (json_loads devcontainer_json);
     of_result (jsonschema_validate parsed_json schema);;
     log INFO (lit "Validation successful.");;
     mret true)
    (λ e,
       match e with
       | JSONDecodeError msg =>
           log ERROR (lit "JSON parsing failed: " ++ msg);;
           log ERROR (lit "Invalid JSON content: "
                        ++ slice_to devcontainer_json 500);;
           mret false
       | ValidationError _ message path schema_path validator =>
           log ERROR (lit "Schema validation failed: " ++ message);;
           log ERROR (lit "Failed at path: " ++ path);;
           log ERROR (lit "Schema path: " ++ schema_path);;
           log ERROR (lit "Validator: " ++ validator);;
           try_except
             (parsed ← of_result (json_loads devcontainer_json);
              keys ← of_result (json_keys_repr parsed);
              log ERROR (lit "Generated JSON keys: " ++ keys);;
              match json_image_repr parsed with
              | Some image => log ERROR (lit "Image value: " ++ image)
              | None => mret tt
              end)
             (λ _, mret tt);;
           mret false
       | _ => raise e
       end).

(** The arguments of the provider call of an attempt, with the
    low temperature and without it. *)
Definition create_args (model prompt : str) (temperature : option Q)
  : call_args :=
  {| arg_model := model;
     arg_response_model := DevContainerModel;
     arg_temperature := temperature;
     arg_max_retries := 2;
     arg_messages :=
       [Message (lit "system") SYSTEM_PROMPT; Message (lit "user") prompt] |}.

(** The provider call of an attempt with its error handling: [None] stands
    for [continue], [Some response] for a response to validate. *)
Definition invoke (prompt : str) (max_retries attempt : Z)
    (model : str) : M (option response) :=
  try_except
    (response ← call (create_args model prompt (Some (1 # 10)%Q));
     mret (Some response))
    (λ e,
       match e with
       | AttributeError _ =>
           log ERROR (lit "AttributeError when calling instructor_client: "
                        ++ exn_str e);;
           log ERROR (lit "Instructor client type: " ++ client_type_repr);;
           log ERROR (lit "Available attributes: " ++ client_dir_repr);;
           raise e
       | _ =>
           let error_msg := exn_str e in
           log ERROR (lit "API call failed: " ++ error_msg);;
           if is_tool_failure error_msg then
             log WARNING (lit "Function calling failed (attempt "
                            ++ show_Z (attempt + 1) ++ lit "/"
                            ++ show_Z (max_retries + 1)
                            ++ lit "). This is common with Groq. Retrying...");;
             if attempt <? max_retries then mret None
             else raise (ValueError TOOL_FAILURE_MSG)
           else if is_temperature_failure error_msg then
             log WARNING
               (lit "Temperature parameter not supported, retrying without it...");;
             response ← call (create_args model prompt None);
             mret (Some response)
           else raise e
       end).

(** The body of the retry loop for one value of [attempt]: [Some r] when
    the function returns [r], [None] when the loop goes on. *)
Definition attempt_body (env : environ) (prompt : str)
    (existing_devcontainer devcontainer_url : option str)
    (max_retries : Z) (regenerate : bool) (attempt : Z)
  : M (option (str * option str)) :=
  try_except
    (log DEBUG (lit "Attempt " ++ show_Z (attempt + 1) ++ lit "/"
                  ++ show_Z (max_retries + 1)
                  ++ lit " to generate devcontainer.json");;
     model ← logged (generation_model env);
     provider ← logged (get_provider env);
     log DEBUG (lit "Using provider: " ++ provider ++ lit ", model: "
                  ++ model);;
     r ← invoke prompt max_retries attempt model;
     match r with
     | None => mret None
     | Some response =>
         let devcontainer_json := response_json response in
         log DEBUG (lit "Generated devcontainer.json (first 500 chars): "
                      ++ slice_to devcontainer_json 500);;
         valid ← validate_devcontainer_json devcontainer_json;
         if (valid : bool) then
           log INFO
             (lit "Successfully generated and validated devcontainer.json");;
           if truthy_opt existing_devcontainer && negb regenerate
           then mret (Some (default [] existing_devcontainer,
                            devcontainer_url))
           else mret (Some (devcontainer_json, None))
         else
           log WARNING (lit "Generated JSON failed validation on attempt "
                          ++ show_Z (attempt + 1));;
           log WARNING (if attempt <? max_retries
                        then lit "Will retry with a new attempt..."
                        else lit "No more retries left.");;
           if attempt =? max_retries then
             log ERROR (lit "Final failed JSON: " ++ devcontainer_json);;
             raise (ValueError VALIDATION_FAILURE_MSG)
           else mret None
     end)
    (λ e,
       log ERROR (lit "Error on attempt " ++ show_Z (attempt + 1)
                    ++ lit ": " ++ exn_str e);;
       if attempt =? max_retries then raise e else mret None).

(** [for attempt in range(max_retries + 1)], from [attempt] on, with
    [remaining] values of [attempt] to go; the [raise] after the loop. *)
Fixpoint retry_loop (remaining : nat) (env : environ) (prompt : str)
    (existing_devcontainer devcontainer_url : option str)
    (max_retries : Z) (regenerate : bool) (attempt : Z)
  : M (str * option str) :=
  match remaining with
  | O => raise (ValueError EXHAUSTED_MSG)
  | S remaining' =>
      r ← attempt_body env prompt existing_devcontainer devcontainer_url
            max_retries regenerate attempt;
      match r with
      | Some returned => mret returned
      | None =>
          retry_loop remaining' env prompt existing_devcontainer
            devcontainer_url max_retries regenerate (attempt + 1)
      end
  end.

(** The function from [logging.info("Generating devcontainer.json...")]
    on. *)
Definition generate_from (env : environ) (repo_url repo_context : str)
    (existing_devcontainer devcontainer_url : option str)
    (max_retries : Z) (regenerate : bool) : M (str * option str) :=
  log INFO (lit "Generating devcontainer.json...");;
  truncated_context ← logged (truncate_context repo_context 126000);
  let template_data :=
    {| td_repo_url := repo_url;
       td_repo_context := truncated_context;
       td_existing_devcontainer := existing_devcontainer |} in
  let prompt :=
    process_template (lit "prompts/devcontainer.jinja") template_data in
  retry_loop (Z.to_nat (max_retries + 1)) env prompt existing_devcontainer
    devcontainer_url max_retries regenerate 0.

Definition generate_devcontainer_json (env : environ)
    (repo_url repo_context : str) (devcontainer_url : option str)
    (max_retries : Z) (regenerate : bool) : M (str * option str) :=
  if py_in EXISTING_START repo_context then
    log INFO (lit "Existing devcontainer.json found in the repository.");;
    existing_devcontainer ← of_result (extract_existing repo_context);
    if negb regenerate && truthy_opt devcontainer_url then
      log INFO (lit "Using existing devcontainer.json from URL: "
                  ++ default [] devcontainer_url);;
      mret (existing_devcontainer, devcontainer_url)
    else
      generate_from env repo_url repo_context (Some existing_devcontainer)
        devcontainer_url max_retries regenerate
  else
    generate_from env repo_url repo_context None devcontainer_url
      max_retries regenerate.

End Orchestrator.

(** The classification the [except] clauses of the provider call implement:
    an [AttributeError] is re-raised as it is; any other exception is a
    function-calling failure when its message has one of the two
    function-calling signatures, else a temperature failure when it has one
    of the two temperature signatures, else fatal for the attempt. *)
Inductive failure_kind :=
| AttributeFailure | ToolFailure | TemperatureFailure | OtherFailure.

Definition classify (e : exn) : failure_kind :=
  match e with
  | AttributeError _ => AttributeFailure
  | _ =>
      if is_tool_failure (exn_str e) then ToolFailure
      else if is_temperature_failure (exn_str e) then TemperatureFailure
      else OtherFailure
  end.

(** ** What a run does to the client and to the invocation record

    The log apart, a computation is determined by the client state it
    starts from: its outcome, the client state it ends in and the
    invocations it adds. *)

Section Outcomes.
Context {T : Tokenizer} {E : Externals}.

(** A run from [s] has the outcome [o]: its result, the client state it
    ends in and the invocations it added. *)
Definition agrees {A} (run : result A * state) (s : state)
    (o : result A * client_state * list invocation) : Prop :=
  run.1 = o.1.1 /\ st_client run.2 = o.1.2
  /\ st_calls run.2 = st_calls s ++ o.2.

(** The outcome of [validate_devcontainer_json]. *)
Definition validation_outcome (devcontainer_json : str) : result bool :=
  match load_schema with
  | Raise e => Raise e
  | Ok schema =>
      let checked :=
        match json_loads devcontainer_json with
        | Raise e => Raise e
        | Ok parsed_json => jsonschema_validate parsed_json schema
        end in
      match checked with
      | Ok _ => Ok true
      | Raise (JSONDecodeError _) => Ok false
      | Raise (ValidationError _ _ _ _ _) => Ok false
      | Raise e => Raise e
      end
  end.

(** What the [except Exception] clause of the retry loop makes of an
    exception raised in the attempt. *)
Definition on_exception {A} (max_retries attempt : Z) (e : exn)
  : result (option A) :=
  if attempt =? max_retries then Raise e else Ok None.

(** The outcome of an attempt once the provider has answered. *)
Definition response_outcome
    (existing_devcontainer devcontainer_url : option str)
    (max_retries : Z) (regenerate : bool) (attempt : Z) (r : response)
  : result (option (str * option str)) :=
  match validation_outcome (response_json r) with
  | Ok true =>
      Ok (Some (if truthy_opt existing_devcontainer && negb regenerate
                then (default [] existing_devcontainer, devcontainer_url)
                else (response_json r, None)))
  | Ok false =>
      on_exception max_retries attempt (ValueError VALIDATION_FAILURE_MSG)
  | Raise e => on_exception max_retries attempt e
  end.

(** The outcome of one attempt, the client state after it and the
    invocations it made. *)
Definition attempt_outcome (env : environ) (prompt : str)
    (existing_devcontainer devcontainer_url : option str)
    (max_retries : Z) (regenerate : bool) (attempt : Z) (c : client_state)
  : result (option (str * option str)) * client_state * list invocation :=
  let model := (generation_model env).1 in
  let with_temperature := create_args model prompt (Some (1 # 10)%Q) in
  let without_temperature := create_args model prompt None in
  let first := create with_temperature c in
  match first.1 with
  | Ok r =>
      (response_outcome existing_devcontainer devcontainer_url max_retries
         regenerate attempt r,
       first.2, [(with_temperature, first.1)])
  | Raise e =>
      match classify e with
      | AttributeFailure | OtherFailure =>
          (on_exception max_retries attempt e,
           first.2, [(with_temperature, first.1)])
      | ToolFailure =>
          (if attempt <? max_retries then Ok None
           else on_exception max_retries attempt
                  (ValueError TOOL_FAILURE_MSG),
           first.2, [(with_temperature, first.1)])
      | TemperatureFailure =>
          let second := create without_temperature first.2 in
          (match second.1 with
           | Ok r =>
               response_outcome existing_devcontainer devcontainer_url
                 max_retries regenerate attempt r
           | Raise e' => on_exception max_retries attempt e'
           end,
           second.2,
           [(with_temperature, first.1); (without_temperature, second.1)])
      end
  end.

(** The outcome of the retry loop. *)
Fixpoint loop_outcome (remaining : nat) (env : environ) (prompt : str)
    (existing_devcontainer devcontainer_url : option str)
    (max_retries : Z) (regenerate : bool) (attempt : Z) (c : client_state)
  : result (str * option str) * client_state * list invocation :=
  match remaining with
  | O => (Raise (ValueError EXHAUSTED_MSG), c, [])
  | S remaining' =>
      let this :=
        attempt_outcome env prompt existing_devcontainer devcontainer_url
          max_retries regenerate attempt c in
      match this.1.1 with
      | Raise e => (Raise e, this.1.2, this.2)
      | Ok (Some returned) => (Ok returned, this.1.2, this.2)
      | Ok None =>
          let rest :=
            loop_outcome remaining' env prompt existing_devcontainer
              devcontainer_url max_retries regenerate (attempt + 1)
              this.1.2 in
          (rest.1.1, rest.1.2, this.2 ++ rest.2)
      end
  end.

(** The prompt of a run. *)
Definition prompt_of (repo_url repo_context : str)
    (existing_devcontainer : option str) : str :=
  process_template (lit "prompts/devcontainer.jinja")
    {| td_repo_url := repo_url;
       td_repo_context := (truncate_context repo_context 126000).1;
       td_existing_devcontainer := existing_devcontainer |}.

(** The outcome of [generate_devcontainer_json]. *)
Definition generate_outcome (env : environ) (repo_url repo_context : str)
    (devcontainer_url : option str) (max_retries : Z) (regenerate : bool)
    (c : client_state)
  : result (str * option str) * client_state * list invocation :=
  let generation existing_devcontainer :=
    loop_outcome (Z.to_nat (max_retries + 1)) env
      (prompt_of repo_url repo_context existing_devcontainer)
      existing_devcontainer devcontainer_url max_retries regenerate 0 c in
  if py_in EXISTING_START repo_context then
    match extract_existing repo_context with
    | Raise e => (Raise e, c, [])
    | Ok existing_devcontainer =>
        if negb regenerate && truthy_opt devcontainer_url
        then (Ok (existing_devcontainer, devcontainer_url), c, [])
        else generation (Some existing_devcontainer)
    end
  else generation None.

(** The invocations one attempt may leave: one call with the temperature
    that did not fail on the temperature, or a call that did, followed by
    one call without the temperature and otherwise the same arguments. *)
Inductive attempt_calls (model prompt : str) : list invocation -> Prop :=
| single_call (r : result response) :
    (forall e, r = Raise e -> classify e <> TemperatureFailure) ->
    attempt_calls model prompt
      [(create_args model prompt (Some (1 # 10)%Q), r)]
| retried_call (e : exn) (r : result response) :
    classify e = TemperatureFailure ->
    attempt_calls model prompt
      [(create_args model prompt (Some (1 # 10)%Q), Raise e);
       (create_args model prompt None, r)].

(** A client whose every answer is rejected by the validator. *)
Definition always_rejected : Prop :=
  forall args c,
  exists r, (create args c).1 = Ok r
            /\ validation_outcome (response_json r) = Ok false.

End Outcomes.

Section Chains.
Context {E : Externals}.

(** [n] calls with [args], one after the other from the client state [c],
    are all answered and all rejected by the validator, and leave the
    client in [c']. *)
Fixpoint rejected_chain (args : call_args) (n : nat)
    (c c' : client_state) : Prop :=
  match n with
  | O => c = c'
  | S n' =>
      exists r, (create args c).1 = Ok r
                /\ validation_outcome (response_json r) = Ok false
                /\ rejected_chain args n' (create args c).2 c'
  end.

End Chains.

Section Traces.
Context {E : Externals}.

(** An invocation whose answer the validator accepts. *)
Definition accepted (k : invocation) : Prop :=
  exists r, k.2 = Ok r /\ validation_outcome (response_json r) = Ok true.

(** [calls] are calls of the client made one after the other from the
    client state [c], each recorded with the answer it got, and they leave
    the client in the state [c']. *)
Fixpoint chained (c : client_state) (calls : list invocation)
    (c' : client_state) : Prop :=
  match calls with
  | [] => c = c'
  | k :: calls' =>
      k.2 = (create k.1 c).1 /\ chained (create k.1 c).2 calls' c'
  end.

End Traces.

(** ** Client set-up ([LLMProviderManager.setup_client],
    [helpers.openai_helpers])

    Set-up logs and may raise.  The SDK constructors and the instructor
    entry points are parameters; an [import] that fails raises as the
    constructor would. *)

Definition Setup (A : Type) : Type := (result A * list log_record)%type.

#[export] Instance Setup_ret : MRet Setup := λ A x, (Ok x, []).
#[export] Instance Setup_bind : MBind Setup := λ A B f m,
  match m.1 with
  | Ok a => ((f a).1, m.2 ++ (f a).2)
  | Raise e => (Raise e, m.2)
  end.

Definition setup_raise {A} (e : exn) : Setup A := (Raise e, []).

(** [try: body except Exception as e: handler e] *)
Definition setup_try {A} (body : Setup A) (handler : exn -> Setup A)
  : Setup A :=
  match body.1 with
  | Ok a => body
  | Raise e => ((handler e).1, body.2 ++ (handler e).2)
  end.

Definition setup_call {A} (r : result A) : Setup A := (r, []).

Definition setup_log (lv : level) (msg : str) : Setup unit :=
  (Ok tt, [LogRecord lv msg]).

Definition setup_logged {A} (m : Logged A) : Setup A := (Ok m.1, m.2).

(** [instructor.Mode] *)
Inductive mode := TOOLS | JSON | GEMINI_JSON.

Class Sdk := {
  (** the raw clients of the provider SDKs *)
  llm_client : Type;
  (** [from openai import ...], [from anthropic import Anthropic],
      [import google.generativeai as genai], [from groq import Groq] *)
  import_openai : result unit;
  import_anthropic : result unit;
  import_genai : result unit;
  import_groq : result unit;
  (** [AzureOpenAI(api_key=, azure_endpoint=, api_version=)] *)
  new_AzureOpenAI : option str -> option str -> option str -> result llm_client;
  (** [OpenAI(api_key=)], [Anthropic(api_key=)], [Groq(api_key=)] *)
  new_OpenAI : option str -> result llm_client;
  new_Anthropic : option str -> result llm_client;
  new_Groq : option str -> result llm_client;
  (** [genai.configure(api_key=)] and [genai.GenerativeModel(model)] *)
  genai_configure : option str -> result unit;
  new_GenerativeModel : str -> result llm_client;
  (** [instructor.patch(client)] and [instructor.patch(client, mode=)],
      [instructor.from_anthropic(client)],
      [instructor.from_gemini(client=, mode=)] *)
  patched_client : Type;
  instructor_patch : llm_client -> option mode -> result patched_client;
  instructor_from_anthropic : llm_client -> result patched_client;
  instructor_from_gemini : llm_client -> mode -> result patched_client;
}.

Section ClientSetup.
Context {K : Sdk}.

Definition setup_azure_openai (env : environ) : Setup llm_client :=
  setup_try
    (setup_call import_openai;;
     setup_log INFO (lit "Setting up Azure OpenAI client...");;
     client ← setup_call
                (new_AzureOpenAI (env !! lit "AZURE_OPENAI_API_KEY")
                   (env !! lit "AZURE_OPENAI_ENDPOINT")
                   (env !! lit "AZURE_OPENAI_API_VERSION"));
     setup_log INFO (lit "Azure OpenAI client initialized successfully");;
     mret client)
    (λ e,
       setup_log ERROR (lit "Failed to initialize Azure OpenAI client: "
                          ++ exn_str e);;
       setup_raise e).

Definition setup_openai (env : environ) : Setup llm_client :=
  setup_try
    (setup_call import_openai;;
     setup_log INFO (lit "Setting up OpenAI client...");;
     client ← setup_call (new_OpenAI (env !! lit "OPENAI_API_KEY"));
     setup_log INFO (lit "OpenAI client initialized successfully");;
     mret client)
    (λ e,
       setup_log ERROR (lit "Failed to initialize OpenAI client: "
                          ++ exn_str e);;
       setup_raise e).

Definition setup_anthropic (env : environ) : Setup llm_client :=
  setup_try
    (setup_call import_anthropic;;
     setup_log INFO (lit "Setting up Anthropic client...");;
     client ← setup_call (new_Anthropic (env !! lit "ANTHROPIC_API_KEY"));
     setup_log INFO (lit "Anthropic client initialized successfully");;
     mret client)
    (λ e,
       setup_log ERROR (lit "Failed to initialize Anthropic client: "
                          ++ exn_str e);;
       setup_raise e).

Definition setup_google (env : environ) : Setup llm_client :=
  setup_try
    (setup_call import_genai;;
     setup_log INFO (lit "Setting up Google Generative AI client...");;
     setup_call (genai_configure (env !! lit "GOOGLE_API_KEY"));;
     let model :=
       match env !! lit "MODEL" with
       | Some m => if truthy m then m else lit "gemini-1.5-pro"
       | None => lit "gemini-1.5-pro"
       end in
     client ← setup_call (new_GenerativeModel model);
     setup_log INFO
       (lit "Google Generative AI client initialized successfully with model: "
          ++ model);;
     mret client)
    (λ e,
       setup_log ERROR (lit "Failed to initialize Google Generative AI client: "
                          ++ exn_str e);;
       setup_raise e).

Definition setup_groq (env : environ) : Setup llm_client :=
  setup_try
    (setup_call import_groq;;
     setup_log INFO (lit "Setting up Groq client...");;
     client ← setup_call (new_Groq (env !! lit "GROQ_API_KEY"));
     setup_log INFO (lit "Groq client initialized successfully");;
     mret client)
    (λ e,
       setup_log ERROR (lit "Failed to initialize Groq client: "
                          ++ exn_str e);;
       setup_raise e).

Definition setup_client (env : environ) : Setup llm_client :=
  provider ← setup_logged (get_provider env);
  setup_log INFO (lit "Initializing LLM provider: " ++ provider);;
  if str_eqb provider (lit "AzureOpenAI") then setup_azure_openai env
  else if str_eqb provider (lit "OpenAI") then setup_openai env
  else if str_eqb provider (lit "Anthropic") then setup_anthropic env
  else if str_eqb provider (lit "Google") then setup_google env
  else if str_eqb provider (lit "Groq") then setup_groq env
  else setup_raise (ValueError (lit "Unsupported LLM provider: " ++ provider)).

(** [helpers.openai_helpers.setup_llm_client] *)
Definition setup_llm_client (env : environ) : Setup llm_client :=
  setup_client env.

(** [helpers.openai_helpers.setup_azure_openai], the deprecated wrapper. *)
Definition helpers_setup_azure_openai (env : environ) : Setup llm_client :=
  setup_log WARNING
    (lit "setup_azure_openai() is deprecated. Use setup_llm_client() instead.");;
  setup_azure_openai env.

(** [helpers.openai_helpers.setup_instructor] *)
Definition setup_instructor (env : environ) (client : llm_client)
  : Setup patched_client :=
  setup_log INFO (lit "Setting up Instructor client...");;
  provider ← setup_logged (get_provider env);
  setup_try
    (if list_in provider [lit "AzureOpenAI"; lit "OpenAI"] then
       setup_log INFO
         (lit "Using default instructor patching for OpenAI-compatible API");;
       setup_call (instructor_patch client None)
     else if str_eqb provider (lit "Groq") then
       setup_log INFO
         (lit "Using default instructor patching for Groq (OpenAI-compatible)");;
       setup_try
         (setup_call (instructor_patch client (Some TOOLS)))
         (λ e,
            setup_log WARNING
              (lit "TOOLS mode failed for Groq, trying JSON mode: "
                 ++ exn_str e);;
            setup_call (instructor_patch client (Some JSON)))
     else if str_eqb provider (lit "Anthropic") then
       setup_log INFO (lit "Using Anthropic-specific instructor setup");;
       setup_call (instructor_from_anthropic client)
     else if str_eqb provider (lit "Google") then
       setup_log INFO (lit "Using Google Gemini-specific instructor setup");;
       setup_call (instructor_from_gemini client GEMINI_JSON)
     else
       setup_log WARNING
         (lit "Unknown provider " ++ provider
            ++ lit ", attempting default instructor patching");;
       setup_call (instructor_patch client None))
    (λ e,
       setup_log ERROR (lit "Failed to setup instructor client: " ++ exn_str e);;
       setup_raise e).

End ClientSetup.

(** [helpers.openai_helpers.check_env_vars]: the verdict and the lines it
    prints. *)
Definition check_env_vars (env : environ) : Logged (bool * list str) :=
  required_vars ← get_required_env_vars env;
  let missing_vars :=
    List.filter (fun var => negb (truthy_opt (env !! var))) required_vars in
  match missing_vars with
  | _ :: _ =>
      mret (false,
            [lit "Missing environment variables: "
               ++ join (lit ", ") missing_vars ++ lit ". "
               ++ lit "Please configure the env vars file properly."])
  | [] => mret (true, [])
  end.


(** ** Test doubles

    A scripted client and small stand-ins for the libraries, to run the
    pipeline on concrete inputs. *)

Definition dquote : str := [ascii_of_nat 34].

(** The text of a JSON object with string fields. *)
Definition json_text (fields : list (str * str)) : str :=
  lit "{"
  ++ join (lit ", ")
       (map (fun kv => dquote ++ kv.1 ++ dquote ++ lit ": "
                         ++ dquote ++ kv.2 ++ dquote) fields)
  ++ lit "}".

(** The client answers the [n]-th call as [script] says; texts that start
    with a brace parse; a parsed text is schema-valid when it mentions
    [image]. *)
Definition stub_externals (script : call_args -> nat -> result str)
  : Externals :=
  {| client_state := nat;
     response := str;
     create := fun args n => (script args n, S n);
     client_type_repr := lit "<class 'Stub'>";
     client_dir_repr := lit "[]";
     response_json := fun r => r;
     process_template := fun name data =>
       lit "Repository: " ++ td_repo_url data ++ lit " Context: "
         ++ td_repo_context data ++ lit " Existing: "
         ++ default (lit "None") (td_existing_devcontainer data);
     json_value := str;
     json_loads := fun text =>
       if startswith (lit "{") text then Ok text
       else Raise (JSONDecodeError
                     (lit "Expecting value: line 1 column 1 (char 0)"));
     load_schema := Ok (lit "{}");
     jsonschema_validate := fun instance schema =>
       if py_in (lit "image") instance then Ok tt
       else Raise (ValidationError
                     (lit "'image' is a required property")
                     (lit "'image' is a required property")
                     (lit "[]") (lit "['required']") (lit "required"));
     json_keys_repr := fun parsed => Ok (lit "['name']");
     json_image_repr := fun parsed => None |}.

Definition INVALID_JSON : str := json_text [(lit "name", lit "x")].
Definition VALID_JSON : str :=
  json_text [(lit "name", lit "x"); (lit "image", lit "y")].

(** A client whose every answer misses the required [image]. *)
Definition always_invalid : Externals :=
  stub_externals (fun _ _ => Ok INVALID_JSON).

(** A client whose every answer is schema-valid. *)
Definition always_valid : Externals :=
  stub_externals (fun _ _ => Ok VALID_JSON).

(** A client that rejects the temperature parameter. *)
Definition no_temperature : Externals :=
  stub_externals (fun args _ =>
    match arg_temperature args with
    | Some _ =>
        Raise (OtherException
                 (lit "Unsupported parameter: 'temperature' is not supported with this model."))
    | None => Ok VALID_JSON
    end).

(** A fresh run: client not yet called, nothing logged. *)
Definition initial {E : Externals} (c : client_state) : state :=
  {| st_client := c; st_calls := []; st_log := [] |}.

(** A context that embeds an existing devcontainer. *)
Definition CONTEXT_WITH_EXISTING : str :=
  lit "tree" ++ LANGUAGES_MARK_NL ++ EXISTING_START
    ++ lit " " ++ VALID_JSON ++ lit " " ++ EXISTING_END.


(** A client whose every call fails in function calling. *)
Definition tool_failing : Externals :=
  stub_externals (fun _ _ =>
    Raise (OtherException (lit "Error code: 400 - tool_use_failed"))).

(** A client without the attribute the orchestrator calls. *)
Definition attribute_failing : Externals :=
  stub_externals (fun _ _ =>
    Raise (AttributeError (lit "'NoneType' object has no attribute 'chat'"))).

(** A client whose first two answers miss [image] and whose later answers
    are schema-valid. *)
Definition third_time_valid : Externals :=
  stub_externals (fun _ n =>
    if (n <? 2)%nat then Ok INVALID_JSON else Ok VALID_JSON).

Definition SCHEMA_NOT_FOUND : exn :=
  OtherException
    (lit "[Errno 2] No such file or directory: 'devContainer.base.schema.json'").

(** An installation without its schema file; the client answers. *)
Definition schema_missing : Externals :=
  {| client_state := nat;
     response := str;
     create := fun args n => (Ok VALID_JSON, S n);
     client_type_repr := lit "<class 'Stub'>";
     client_dir_repr := lit "[]";
     response_json := fun r => r;
     process_template := fun name data => td_repo_context data;
     json_value := str;
     json_loads := fun text => Ok text;
     load_schema := Raise SCHEMA_NOT_FOUND;
     jsonschema_validate := fun instance schema => Ok tt;
     json_keys_repr := fun parsed => Ok (lit "[]");
     json_image_repr := fun parsed => None |}.

(** An environment with every variable the OpenAI provider requires. *)
Definition OPENAI_ENV : environ :=
  list_to_map
    [(lit "LLM_PROVIDER", lit "OpenAI"); (lit "MODEL", lit "gpt-4o");
     (lit "GITHUB_TOKEN", lit "ghp_x"); (lit "SUPABASE_URL", lit "https://s");
     (lit "SUPABASE_KEY", lit "k"); (lit "OPENAI_API_KEY", lit "sk-x")].

(** SDKs that build a client when they are given a key, and an instructor
    whose TOOLS mode is not available. *)
Definition stub_sdk : Sdk :=
  {| llm_client := str;
     import_openai := Ok tt;
     import_anthropic := Ok tt;
     import_genai := Ok tt;
     import_groq :=
       Raise (OtherException (lit "No module named 'groq'"));
     new_AzureOpenAI := fun api_key azure_endpoint api_version =>
       match api_key, azure_endpoint with
       | Some _, Some _ => Ok (lit "AzureOpenAI")
       | _, _ =>
           Raise (OtherException
                    (lit "Missing credentials. Please pass one of `api_key`, `azure_ad_token`, `azure_ad_token_provider`"))
       end;
     new_OpenAI := fun api_key =>
       match api_key with
       | Some _ => Ok (lit "OpenAI")
       | None =>
           Raise (OtherException
                    (lit "The api_key client option must be set"))
       end;
     new_Anthropic := fun api_key => Ok (lit "Anthropic");
     new_Groq := fun api_key => Ok (lit "Groq");
     genai_configure := fun api_key => Ok tt;
     new_GenerativeModel := fun model => Ok (lit "GenerativeModel " ++ model);
     patched_client := str * option mode;
     instructor_patch := fun client m =>
       match m with
       | Some TOOLS =>
           Raise (OtherException (lit "TOOLS mode is not supported"))
       | _ => Ok (client, m)
       end;
     instructor_from_anthropic := fun client => Ok (client, None);
     instructor_from_gemini := fun client m => Ok (client, Some m) |}.

(** The decimal digits. *)
Definition is_digit (c : ascii) : bool :=
  (48 <=? nat_of_ascii c)%nat && (nat_of_ascii c <=? 57)%nat.

(** [json.loads] as Python has it for a text of more than 4300 digits: the
    conversion of the integer raises a [ValueError] that is no
    [JSONDecodeError]. *)
Definition digit_limit : Externals :=
  {| client_state := nat;
     response := str;
     create := fun args n => (Ok VALID_JSON, S n);
     client_type_repr := lit "<class 'Stub'>";
     client_dir_repr := lit "[]";
     response_json := fun r => r;
     process_template := fun name data => td_repo_context data;
     json_value := str;
     json_loads := fun text =>
       if startswith (lit "{") text then Ok text
       else if forallb is_digit text && (4300 <? length text)%nat then
         Raise (ValueError
                  (lit "Exceeds the limit (4300 digits) for integer string conversion: value has "
                     ++ show_Z (len text)
                     ++ lit " digits; use sys.set_int_max_str_digits() to increase the limit"))
       else Raise (JSONDecodeError
                     (lit "Expecting value: line 1 column 1 (char 0)"));
     load_schema := Ok (lit "{}");
     jsonschema_validate := fun instance schema =>
       if py_in (lit "image") instance then Ok tt
       else Raise (ValidationError
                     (lit "'image' is a required property")
                     (lit "'image' is a required property")
                     (lit "[]") (lit "['required']") (lit "required"));
     json_keys_repr := fun parsed => Ok (lit "['name']");
     json_image_repr := fun parsed => None |}.

(** A context that quotes the start marker before it embeds a
    devcontainer. *)
Definition CONTEXT_QUOTING_MARKER : str :=
  lit "The block after " ++ EXISTING_START ++ lit " tags. "
    ++ EXISTING_START ++ lit " " ++ VALID_JSON ++ lit " " ++ EXISTING_END.

(** A client whose failure has a function-calling signature and names the
    temperature as well. *)
Definition TOOL_AND_TEMPERATURE : exn :=
  OtherException (lit "TOOL_USE_FAILED: Temperature is not supported").

Definition tool_and_temperature_failing : Externals :=
  stub_externals (fun _ _ => Raise TOOL_AND_TEMPERATURE).

(** A client that fails with an [AttributeError] that names the
    temperature. *)
Definition ATTRIBUTE_AND_TEMPERATURE : exn :=
  AttributeError (lit "'Completions' object does not support temperature").

Definition attribute_and_temperature_failing : Externals :=
  stub_externals (fun _ _ => Raise ATTRIBUTE_AND_TEMPERATURE).

(** A context that embeds a devcontainer other than the ones the test
    clients generate. *)
Definition EMBEDDED_JSON : str :=
  json_text [(lit "name", lit "old"); (lit "image", lit "z")].

Definition CONTEXT_WITH_EMBEDDED : str :=
  lit "tree" ++ LANGUAGES_MARK_NL ++ EXISTING_START
    ++ lit " " ++ EMBEDDED_JSON ++ lit " " ++ EXISTING_END.

(** The name of a provider in the messages of its set-up function. *)
Definition provider_display_name (provider : str) : str :=
  if str_eqb provider (lit "AzureOpenAI") then lit "Azure OpenAI"
  else if str_eqb provider (lit "Google") then lit "Google Generative AI"
  else provider.

(** * Properties *)

Arguments lit : simpl never.
Arguments show_Z : simpl never.
Arguments slice_to : simpl never.
Arguments slice_from : simpl never.
Arguments is_tool_failure : simpl never.
Arguments is_temperature_failure : simpl never.

(** ** Strings and slices *)

Lemma len_nonneg {A} (l : list A) : 0 <= len l.
Proof. unfold len. lia. Qed.

Lemma slice_to_nonneg {A} (l : list A) (k : Z) :
  0 <= k -> slice_to l k = take (Z.to_nat k) l.
Proof.
  intros Hk. unfold slice_to, slice_index.
  destruct (Z.ltb_spec k 0) as [Hlt | _]; [lia |].
  destruct (Z.le_gt_cases k (Z.of_nat (length l))) as [Hle | Hgt].
  - by rewrite Z.min_l.
  - rewrite Z.min_r, Nat2Z.id by lia.
    rewrite (take_ge l (length l)) by lia.
    rewrite (take_ge l (Z.to_nat k)) by lia. done.
Qed.

Lemma slice_to_length {A} (l : list A) (k : Z) :
  0 <= k -> len (slice_to l k) <= k.
Proof.
  intros Hk. rewrite slice_to_nonneg by done.
  unfold len. rewrite length_take. lia.
Qed.

Lemma slice_to_minus_one {A} (l : list A) :
  slice_to l (-1) = take (length l - 1) l.
Proof.
  unfold slice_to, slice_index.
  destruct (Z.ltb_spec (-1) 0) as [_ | Hge]; [| lia].
  f_equal. lia.
Qed.

Lemma slice_from_nonneg {A} (l : list A) (k : Z) :
  0 <= k -> slice_from l k = drop (Z.to_nat k) l.
Proof.
  intros Hk. unfold slice_from, slice_index.
  destruct (Z.ltb_spec k 0) as [Hlt | _]; [lia |].
  destruct (Z.le_gt_cases k (Z.of_nat (length l))) as [Hle | Hgt].
  - by rewrite Z.min_l.
  - rewrite Z.min_r, Nat2Z.id by lia.
    rewrite (drop_ge l (length l)) by lia.
    rewrite (drop_ge l (Z.to_nat k)) by lia. done.
Qed.

Lemma startswith_spec (p s : str) :
  startswith p s = true <-> exists t, s = p ++ t.
Proof.
  revert s. induction p as [| a p IH]; intros s; simpl.
  - split; [intros _; by exists s | done].
  - destruct s as [| b s].
    + split; [done | intros [t Ht]; discriminate].
    + rewrite andb_true_iff, IH. split.
      * intros [Hab [t ->]]. apply Ascii.eqb_eq in Hab as ->. by exists t.
      * intros [t Ht]. injection Ht as -> ->. split.
        -- apply Ascii.eqb_refl.
        -- by exists t.
Qed.

Lemma startswith_app (p t : str) : startswith p (p ++ t) = true.
Proof. apply startswith_spec. by exists t. Qed.

(** [find_nat] returns a position where the text occurs. *)
Lemma find_nat_Some (sub s : str) (i : nat) :
  find_nat sub s = Some i ->
  s = take i s ++ sub ++ drop (i + length sub) s /\ (i + length sub <= length s)%nat.
Proof.
  revert i. induction s as [| c s IH]; intros i; simpl.
  - destruct (startswith sub []) eqn:Hp; [| done].
    intros [= <-]. apply startswith_spec in Hp as [t Ht].
    symmetry in Ht. apply app_eq_nil in Ht as [-> ->]. done.
  - destruct (startswith sub (c :: s)) eqn:Hp.
    + intros [= <-]. apply startswith_spec in Hp as [t Ht].
      pose proof (f_equal length Ht) as Hlen.
      rewrite length_app in Hlen. simpl in Hlen.
      rewrite Ht. simpl. rewrite drop_app_length. split; [done | lia].
    + destruct (find_nat sub s) as [j |] eqn:Hj; [| done].
      simpl. intros [= <-]. destruct (IH j eq_refl) as [Heq Hlen].
      simpl. split; [by rewrite <- Heq | lia].
Qed.

(** ... and it is the first such position. *)
Lemma find_nat_first (sub s : str) (i j : nat) :
  find_nat sub s = Some i -> (j < i)%nat -> startswith sub (drop j s) = false.
Proof.
  revert i j. induction s as [| c s IH]; intros i j; simpl.
  - destruct (startswith sub []); [| done]. intros [= <-]. lia.
  - destruct (startswith sub (c :: s)) eqn:Hp.
    + intros [= <-]. lia.
    + destruct (find_nat sub s) as [k |] eqn:Hk; [| done].
      simpl. intros [= <-] Hj. destruct j as [| j]; [done |].
      simpl. apply (IH k); [done | lia].
Qed.

Lemma find_nat_None (sub s : str) (j : nat) :
  find_nat sub s = None -> startswith sub (drop j s) = false.
Proof.
  revert j. induction s as [| c s IH]; intros j; simpl.
  - destruct (startswith sub []) eqn:Hp; [done |]. by destruct j.
  - destruct (startswith sub (c :: s)) eqn:Hp; [done |].
    destruct (find_nat sub s) eqn:Hk; [done |]. intros _.
    destruct j as [| j]; [done |]. simpl. by apply IH.
Qed.

(** A position with no earlier occurrence is the one [find_nat] returns. *)
Lemma find_nat_intro (sub s : str) (i : nat) :
  startswith sub (drop i s) = true ->
  (i <= length s)%nat ->
  (forall j, (j < i)%nat -> startswith sub (drop j s) = false) ->
  find_nat sub s = Some i.
Proof.
  revert i. induction s as [| c s IH]; intros i Hi Hlen Hfirst; simpl in *.
  - assert (i = 0%nat) as -> by lia. simpl in Hi. by rewrite Hi.
  - destruct i as [| i].
    + simpl in Hi. by rewrite Hi.
    + pose proof (Hfirst 0%nat ltac:(lia)) as H0. simpl in H0. rewrite H0.
      rewrite (IH i); [done | done | lia |].
      intros j Hj. apply (Hfirst (S j)). lia.
Qed.

(** ** Token budgeter *)

Section TokenBudgeterProps.
Context {T : Tokenizer}.

(** The value [truncate_context] returns, its log apart. *)
Lemma truncate_context_value (C : str) (B : Z) :
  (truncate_context C B).1 =
    if ntokens C <=? B then C
    else if ntokens (important_content C) >? B
         then decode (slice_to (encode (important_content C)) B)
         else important_content C
                ++ decode (slice_to (encode (remaining_content C))
                             (B - ntokens (important_content C))).
Proof.
  unfold truncate_context, ntokens, important_content, remaining_content.
  destruct (len (encode C) <=? B); [reflexivity |].
  destruct (_ >? B); reflexivity.
Qed.

(** C3: a context whose token count is within the budget is returned
    as it is. *)
Theorem truncate_context_within_budget (C : str) (B : Z) :
  ntokens C <= B -> (truncate_context C B).1 = C.
Proof.
  intros Hfit. rewrite truncate_context_value.
  destruct (Z.leb_spec (ntokens C) B); [done | lia].
Qed.

Lemma important_content_found (C : str) (p : nat) :
  find_nat LANGUAGES_MARK C = Some p ->
  important_content C = take p C ++ LANGUAGES_MARK_NL.
Proof.
  intros Hp. unfold important_content, py_find. rewrite Hp.
  rewrite slice_to_nonneg, Nat2Z.id by lia. done.
Qed.

(** The part of a text up to and including the first Languages marker. *)
Lemma take_through_mark (C X : str) (p : nat) :
  find_nat LANGUAGES_MARK C = Some p ->
  take (p + length LANGUAGES_MARK) (take p C ++ LANGUAGES_MARK_NL ++ X)
  = take (p + length LANGUAGES_MARK) C.
Proof.
  intros Hp. apply find_nat_Some in Hp as [Hsplit Hlen].
  assert (length (take p C) = p) as Hp' by (rewrite length_take; lia).
  assert (forall Y : str,
             take (p + length LANGUAGES_MARK) (take p C ++ LANGUAGES_MARK ++ Y)
             = take p C ++ LANGUAGES_MARK) as Hcut.
  { intros Y. rewrite app_assoc.
    rewrite <- Hp' at 1. rewrite <- length_app. apply take_app_length. }
  unfold LANGUAGES_MARK_NL. rewrite <- (app_assoc LANGUAGES_MARK), Hcut.
  rewrite Hsplit at 2. by rewrite Hcut.
Qed.

(** C4 (as amended): an over-budget context that has the Languages
    delimiter, for a budget that is not negative, is cut to at most
    [B] of its tokens.  When the important content alone has more than [B]
    tokens the result is the decoding of its first [B] tokens; otherwise
    it is the important content followed by the decoding of the first
    [B - n] tokens of the remaining content, [n] the token count of the
    important content, and the text up to and including the delimiter is
    that of the context. *)
Theorem truncate_context_over_budget (C : str) (B : Z) (p : nat) :
  find_nat LANGUAGES_MARK C = Some p ->
  0 <= B ->
  B < ntokens C ->
  let important := take p C ++ LANGUAGES_MARK_NL in
  let remaining := drop (p + length LANGUAGES_MARK_NL) C in
  let kept_important := take (Z.to_nat B) (encode important) in
  let kept_remaining :=
    take (Z.to_nat (B - ntokens important)) (encode remaining) in
  (B < ntokens important ->
   (truncate_context C B).1 = decode kept_important
   /\ len kept_important = B)
  /\ (ntokens important <= B ->
      (truncate_context C B).1 = important ++ decode kept_remaining
      /\ ntokens important + len kept_remaining <= B
      /\ take (p + length LANGUAGES_MARK) (truncate_context C B).1
         = take (p + length LANGUAGES_MARK) C).
Proof.
  intros Hp HB Hover. cbv zeta. rewrite truncate_context_value.
  destruct (Z.leb_spec (ntokens C) B) as [Hle | _]; [lia |].
  rewrite (important_content_found C p Hp).
  assert (remaining_content C = drop (p + length LANGUAGES_MARK_NL) C)
    as ->.
  { unfold remaining_content, py_find. rewrite Hp.
    rewrite slice_from_nonneg by (pose proof (len_nonneg LANGUAGES_MARK_NL); lia).
    f_equal. unfold len. lia. }
  set (important := take p C ++ LANGUAGES_MARK_NL).
  set (remaining := drop (p + length LANGUAGES_MARK_NL) C).
  destruct (Z.gtb_spec (ntokens important) B) as [Hbig | Hfit].
  - split; [intros _ | lia].
    rewrite slice_to_nonneg by done. split; [done |].
    unfold len, ntokens, len in *. rewrite length_take. lia.
  - split; [lia | intros _].
    rewrite slice_to_nonneg by lia. split_and!; [done | |].
    + unfold len. rewrite length_take. lia.
    + unfold important. rewrite <- app_assoc. by apply take_through_mark.
Qed.

(** C5: for an over-budget context without the Languages delimiter,
    [find] gives [-1] and the slices are still defined: the important
    content is the context less its last character, followed by the
    delimiter, and the remaining content starts at position 39; the
    function returns the truncation it builds from them. *)
Theorem truncate_context_no_delimiter (C : str) (B : Z) :
  find_nat LANGUAGES_MARK C = None ->
  B < ntokens C ->
  let important := take (length C - 1) C ++ LANGUAGES_MARK_NL in
  let remaining := drop 39 C in
  (truncate_context C B).1 =
    if ntokens important >? B
    then decode (slice_to (encode important) B)
    else important
           ++ decode (slice_to (encode remaining) (B - ntokens important)).
Proof.
  intros Hno Hover. cbv zeta. rewrite truncate_context_value.
  destruct (Z.leb_spec (ntokens C) B) as [Hle | _]; [lia |].
  unfold important_content, remaining_content, py_find. rewrite Hno.
  rewrite slice_to_minus_one.
  change (-1 + len LANGUAGES_MARK_NL) with 39.
  rewrite slice_from_nonneg by lia. done.
Qed.

End TokenBudgeterProps.

(** Witness of C3 with one token per character. *)
Lemma truncate_context_within_budget_witness :
  (@truncate_context char_tokenizer (lit "abc") 5).1 = lit "abc".
Proof.
  apply (@truncate_context_within_budget char_tokenizer).
  vm_compute. discriminate.
Defined.

(** Witness of C4 (as amended): three characters, the delimiter, ten more
    characters, cut to 45 one-character tokens. *)
Lemma truncate_context_over_budget_witness :
  let C := lit "abc" ++ LANGUAGES_MARK_NL ++ lit "rest of it" in
  (@truncate_context char_tokenizer C 45).1
  = lit "abc" ++ LANGUAGES_MARK_NL ++ lit "re".
Proof.
  cbv zeta.
  destruct (@truncate_context_over_budget char_tokenizer
              (lit "abc" ++ LANGUAGES_MARK_NL ++ lit "rest of it") 45 3)
    as [_ Hfit].
  - reflexivity.
  - lia.
  - vm_compute. reflexivity.
  - destruct Hfit as [-> _]; [vm_compute; discriminate |]. reflexivity.
Defined.

(** Witness of C5: a context of six characters and a budget of three
    tokens. *)
Lemma truncate_context_no_delimiter_witness :
  (@truncate_context char_tokenizer (lit "abcdef") 3).1 = lit "abc".
Proof.
  rewrite (@truncate_context_no_delimiter char_tokenizer (lit "abcdef") 3).
  - reflexivity.
  - reflexivity.
  - vm_compute. reflexivity.
Defined.

(** Counterexample to C4.  With a tokenizer that has merged tokens, the
    important content (43 tokens) and the one token kept of the remaining
    content are within the budget of 44, and the text glued from them has
    45 tokens, the newline before it having merged with the head of
    [rest].  And for a negative budget no result can be within it: with
    one token per character and a budget of [-1], the result has 42
    tokens. *)
Lemma truncate_context_exceeds_budget :
  let C := lit "abc" ++ LANGUAGES_MARK_NL ++ lit "rest of it" in
  (find_nat LANGUAGES_MARK C = Some 3%nat
   /\ 44 < @ntokens merging_tokenizer C
   /\ @ntokens merging_tokenizer (@important_content C) = 43
   /\ (@truncate_context merging_tokenizer C 44).1
      = lit "abc" ++ LANGUAGES_MARK_NL ++ lit "rest"
   /\ @ntokens merging_tokenizer (@truncate_context merging_tokenizer C 44).1
      = 45)
  /\ (-1 < @ntokens char_tokenizer C
      /\ @ntokens char_tokenizer (@truncate_context char_tokenizer C (-1)).1
         = 42).
Proof. cbv zeta. split_and!; by vm_compute. Qed.

(** ** Provider selector *)

Lemma str_eqb_eq (a b : str) : str_eqb a b = true <-> a = b.
Proof. unfold str_eqb. apply bool_decide_eq_true. Qed.

Lemma list_in_In (x : str) (l : list str) : list_in x l = true <-> In x l.
Proof.
  unfold list_in. rewrite existsb_exists. split.
  - intros [y [Hy Heq]]. apply str_eqb_eq in Heq as ->. done.
  - intros Hx. exists x. split; [done | by apply str_eqb_eq].
Qed.

(** C6: whatever [LLM_PROVIDER] holds, [get_provider] returns a supported
    provider: the configured one when it is supported, and AzureOpenAI when
    the variable is unset or holds anything else. *)
Theorem get_provider_supported (env : environ) :
  let configured := default (lit "AzureOpenAI") (env !! lit "LLM_PROVIDER") in
  In (get_provider env).1 SUPPORTED_PROVIDERS
  /\ (get_provider env).1
     = if decide (In configured SUPPORTED_PROVIDERS) then configured
       else lit "AzureOpenAI".
Proof.
  cbv zeta. unfold get_provider.
  destruct (list_in _ SUPPORTED_PROVIDERS) eqn:Hin;
    cbn [negb fst mret Logged_ret mbind Logged_bind].
  - apply list_in_In in Hin. by rewrite decide_True.
  - rewrite decide_False.
    + split; [| done]. by left.
    + intros Hc. apply list_in_In in Hc. congruence.
Qed.

(** [get_default_model] by itself does fall back: it returns the override
    only when it is set, non-empty and compatible with the provider. *)
Lemma get_default_model_value (env : environ) :
  let provider := (get_provider env).1 in
  let default_model := default (lit "gpt-4o-mini") (defaults !! provider) in
  (get_default_model env).1 =
    match env !! lit "MODEL" with
    | Some model =>
        if truthy model && (validate_model_for_provider model provider).1
        then model else default_model
    | None => default_model
    end.
Proof.
  cbv zeta. unfold get_default_model.
  destruct (env !! lit "MODEL") as [model |] eqn:Hm; [| reflexivity].
  destruct model as [| c model]; [reflexivity |].
  unfold mbind, Logged_bind.
  cbn [fst truthy_opt truthy negb andb default from_option id].
  match goal with
  | |- context [validate_model_for_provider ?m ?p] =>
      destruct (validate_model_for_provider m p) as [[] msg]
  end; reflexivity.
Qed.

(** C7, on the failing input: with provider Anthropic and the override
    [gpt-4o-mini], which the Anthropic allow-list rejects and for which
    [get_default_model] selects the Anthropic default, the orchestrator
    still takes the override as the model and passes it to the provider
    call. *)
Theorem generation_model_incompatible_override :
  let env : environ :=
    <[lit "LLM_PROVIDER" := lit "Anthropic"]>
      (<[lit "MODEL" := lit "gpt-4o-mini"]> ∅) in
  let run :=
    @generate_devcontainer_json char_tokenizer always_valid env
      (lit "https://github.com/o/r") (lit "tree") None 3 false
      (@initial always_valid 0%nat) in
  (get_provider env).1 = lit "Anthropic"
  /\ (validate_model_for_provider (lit "gpt-4o-mini") (lit "Anthropic")).1 = false
  /\ (get_default_model env).1 = lit "claude-3-5-sonnet-20241022"
  /\ (generation_model env).1 = lit "gpt-4o-mini"
  /\ map (fun c => arg_model c.1) (st_calls run.2) = [lit "gpt-4o-mini"].
Proof. vm_compute. repeat split; reflexivity. Qed.

(** ** The orchestrator: outcomes of the monadic model *)

Section OutcomeProps.
Context {T : Tokenizer} {E : Externals}.

Ltac eval_run :=
  repeat progress
    (lazy beta iota zeta delta
       [agrees attempt_body invoke attempt_outcome response_outcome
        on_exception classify
        log logged emit call of_result raise try_except
        mbind M_bind mret M_ret];
     cbn [fst snd st_client st_calls st_log]).

Ltac close :=
  solve [repeat split; rewrite ?app_nil_r, <- ?app_assoc; reflexivity].

(** The validator leaves the client and the invocation record alone. *)
Lemma validate_outcome text s :
  agrees (validate_devcontainer_json text s) s
    (validation_outcome text, st_client s, []).
Proof.
  unfold validate_devcontainer_json, validation_outcome. eval_run.
  destruct load_schema as [schema | e]; eval_run; [| close].
  destruct (json_loads text) as [j | e]; eval_run.
  - destruct (jsonschema_validate j schema) as [[] | e]; eval_run; [close |].
    destruct e; eval_run; try close.
    destruct (json_keys_repr j); eval_run; [| close].
    destruct (json_image_repr j); eval_run; close.
  - destruct e; eval_run; close.
Qed.

Ltac validated :=
  match goal with
  | |- context [validate_devcontainer_json ?t ?st] =>
      let Hr := fresh "Hresult" in
      let Hc := fresh "Hclient" in
      let Hk := fresh "Hcalls" in
      destruct (validate_outcome t st) as (Hr & Hc & Hk);
      destruct (validate_devcontainer_json t st) as [? ?];
      cbn [fst snd st_client st_calls st_log] in Hr, Hc, Hk;
      subst
  end.

Ltac close_with_calls :=
  solve [repeat split;
         repeat match goal with
           | H : st_calls _ = _ |- _ => rewrite H; clear H
           end;
         rewrite ?app_nil_r, <- ?app_assoc; reflexivity].

Ltac crush :=
  eval_run;
  try close_with_calls;
  try (validated; crush);
  try (match goal with
       | |- context [match ?x with _ => _ end] =>
           lazymatch x with
           | context [match _ with _ => _ end] => fail
           | _ => destruct x; crush
           end
       end).

Lemma attempt_body_outcome env prompt existing url max_retries regenerate
    attempt s :
  agrees
    (attempt_body env prompt existing url max_retries regenerate attempt s)
    s
    (attempt_outcome env prompt existing url max_retries regenerate attempt
       (st_client s)).
Proof.
  eval_run.
  destruct (create _ (st_client s)) as [[r | e] c1] eqn:Hfirst; eval_run.
  - validated.
    destruct (validation_outcome (response_json r)) as [[] | e]; crush.
  - destruct e; eval_run;
      try (destruct (is_tool_failure _); eval_run;
           [| destruct (is_temperature_failure _); eval_run;
              [destruct (create _ c1) as [[r | e] c2] eqn:Hsecond; eval_run;
               [validated;
                destruct (validation_outcome (response_json r))
                  as [[] | e] |] |]]);
      crush.
Qed.

Lemma retry_loop_outcome remaining env prompt existing url max_retries
    regenerate attempt s :
  agrees
    (retry_loop remaining env prompt existing url max_retries regenerate
       attempt s)
    s
    (loop_outcome remaining env prompt existing url max_retries regenerate
       attempt (st_client s)).
Proof.
  revert attempt s. induction remaining as [| n IH]; intros attempt s.
  - repeat split. cbn. by rewrite app_nil_r.
  - cbn [retry_loop loop_outcome].
    pose proof (attempt_body_outcome env prompt existing url max_retries
                  regenerate attempt s) as (Hr & Hc & Hk).
    set (o := attempt_outcome env prompt existing url max_retries
                regenerate attempt (st_client s)) in *.
    unfold mbind, M_bind, mret, M_ret, raise. cbv zeta.
    destruct (attempt_body env prompt existing url max_retries regenerate
                attempt s) as [r s1].
    cbn [fst snd] in Hr, Hc, Hk. rewrite <- Hr, <- Hc.
    destruct r as [[returned |] | e].
    + repeat split; cbn [fst snd]; congruence.
    + destruct (IH (attempt + 1) s1) as (Hr' & Hc' & Hk').
      repeat split; cbn [fst snd]; [done | done |].
      by rewrite Hk', Hk, <- app_assoc.
    + repeat split; cbn [fst snd]; congruence.
Qed.

Lemma generate_outcome_agrees env repo_url repo_context url max_retries
    regenerate s :
  agrees
    (generate_devcontainer_json env repo_url repo_context url max_retries
       regenerate s)
    s
    (generate_outcome env repo_url repo_context url max_retries regenerate
       (st_client s)).
Proof.
  assert (forall existing s1,
             st_client s1 = st_client s -> st_calls s1 = st_calls s ->
             agrees
               (generate_from env repo_url repo_context existing url
                  max_retries regenerate s1)
               s
               (loop_outcome (Z.to_nat (max_retries + 1)) env
                  (prompt_of repo_url repo_context existing) existing url
                  max_retries regenerate 0 (st_client s))) as Hfrom.
  { intros existing s1 Hc Hk. unfold generate_from, prompt_of.
    unfold log, logged, emit. unfold mbind, M_bind, mret, M_ret.
    cbn [fst snd st_client st_calls st_log]. rewrite Hc, Hk.
    match goal with
    | |- agrees (retry_loop ?n ?e ?p ?x ?u ?m ?r ?a ?st) _ _ =>
        destruct (retry_loop_outcome n e p x u m r a st) as (Hr & Hc' & Hk')
    end.
    cbn [st_client st_calls] in Hr, Hc', Hk'.
    repeat split; assumption. }
  unfold generate_devcontainer_json, generate_outcome.
  destruct (py_in EXISTING_START repo_context); [| by apply Hfrom].
  unfold log, emit, of_result. unfold mbind, M_bind, mret, M_ret.
  destruct (extract_existing repo_context) as [existing | e].
  - destruct (negb regenerate && truthy_opt url).
    + repeat split; cbn [fst snd st_client st_calls]; by rewrite ?app_nil_r.
    + by apply Hfrom.
  - repeat split; cbn [fst snd st_client st_calls]; by rewrite ?app_nil_r.
Qed.

End OutcomeProps.

(** ** Splitting and the embedded artifact *)

Lemma find_nat_starts (sub s : str) (i : nat) :
  find_nat sub s = Some i -> startswith sub (drop i s) = true.
Proof.
  revert i. induction s as [| c s IH]; intros i; simpl.
  - destruct (startswith sub []) eqn:Hp; [| done]. by intros [= <-].
  - destruct (startswith sub (c :: s)) eqn:Hp.
    + by intros [= <-].
    + destruct (find_nat sub s) as [j |] eqn:Hj; [| done].
      simpl. intros [= <-]. simpl. by apply IH.
Qed.

Lemma startswith_take_inv (p t : str) (n : nat) :
  startswith p (take n t) = true -> startswith p t = true.
Proof.
  rewrite !startswith_spec. intros [u Hu].
  exists (u ++ drop n t). rewrite app_assoc, <- Hu. by rewrite take_drop.
Qed.

Lemma startswith_take (p t : str) (n : nat) :
  startswith p t = true -> (length p <= n)%nat ->
  startswith p (take n t) = true.
Proof.
  rewrite !startswith_spec. intros [u ->] Hn.
  exists (take (n - length p) u). by rewrite take_app_ge.
Qed.

(** The first occurrence in a text is the first occurrence in any prefix of
    the text that still holds it. *)
Lemma find_nat_take (sub s : str) (i q : nat) :
  find_nat sub s = Some i -> (i + length sub <= q)%nat ->
  find_nat sub (take q s) = Some i.
Proof.
  intros Hfind Hq.
  pose proof (find_nat_Some sub s i Hfind) as [_ Hlen].
  apply find_nat_intro.
  - replace q with (i + (q - i))%nat by lia.
    rewrite <- take_drop_commute.
    apply startswith_take; [by apply find_nat_starts | lia].
  - rewrite length_take. lia.
  - intros j Hj. destruct (startswith sub (drop j (take q s))) eqn:Hs; [| done].
    replace q with (j + (q - j))%nat in Hs by lia.
    rewrite <- take_drop_commute in Hs. apply startswith_take_inv in Hs.
    by rewrite (find_nat_first sub s i j) in Hs.
Qed.

Lemma split_fuel_nonempty (fuel : nat) (sep s : str) :
  exists part parts, split_fuel fuel sep s = part :: parts.
Proof.
  destruct fuel as [| fuel]; simpl; [by eauto |].
  destruct (find_nat sep s); by eauto.
Qed.

(** The first part of a split is the text before the first separator. *)
Lemma py_split_first (s sep : str) (i : nat) :
  find_nat sep s = Some i -> (0 < length sep)%nat ->
  py_index (py_split s sep) 0 = Ok (take i s).
Proof.
  intros Hfind Hsep. apply find_nat_Some in Hfind as Hlen.
  destruct Hlen as [_ Hlen]. unfold py_split.
  destruct (length s) as [| n]; [lia |].
  cbn [split_fuel]. by rewrite Hfind.
Qed.

(** The second part of a split is the text after the first separator, up to
    the next separator if there is one. *)
Lemma py_split_second (s sep : str) (i : nat) :
  find_nat sep s = Some i -> (0 < length sep)%nat ->
  let rest := drop (i + length sep) s in
  py_index (py_split s sep) 1
  = Ok (match find_nat sep rest with
        | Some q => take q rest
        | None => rest
        end).
Proof.
  intros Hfind Hsep rest. apply find_nat_Some in Hfind as Hlen.
  destruct Hlen as [_ Hlen]. unfold py_split.
  destruct (length s) as [| n] eqn:Hn; [lia |].
  cbn [split_fuel]. rewrite Hfind. fold rest.
  destruct n as [| n].
  - assert (rest = []) as ->.
    { apply length_zero_iff_nil. unfold rest. rewrite length_drop. lia. }
    cbn [split_fuel]. destruct sep; [simpl in Hsep; lia | done].
  - cbn [split_fuel]. by destruct (find_nat sep rest).
Qed.

(** The text the orchestrator takes for the existing devcontainer is always
    there once the start marker is: the two indexings cannot fail. *)
Lemma extract_existing_ok (repo_context : str) :
  py_in EXISTING_START repo_context = true ->
  exists existing, extract_existing repo_context = Ok existing.
Proof.
  unfold py_in, extract_existing.
  destruct (find_nat EXISTING_START repo_context) as [i |] eqn:Hfind; [| done].
  intros _. rewrite (py_split_second _ _ _ Hfind) by (vm_compute; lia).
  cbv zeta.
  match goal with
  | |- context [py_split ?part EXISTING_END] =>
      unfold py_split;
      destruct (split_fuel_nonempty (length part) EXISTING_END part)
        as (body & rest & ->)
  end.
  by eauto.
Qed.

(** When the context holds [body] between the first start marker and the
    end marker that follows it, with no second start marker before that end
    marker, the extracted text is [body], stripped. *)
Lemma extract_existing_embedded (pre body post : str) :
  let rest := body ++ EXISTING_END ++ post in
  find_nat EXISTING_START (pre ++ EXISTING_START ++ rest) = Some (length pre) ->
  find_nat EXISTING_END rest = Some (length body) ->
  (forall q, find_nat EXISTING_START rest = Some q ->
             (length body + length EXISTING_END <= q)%nat) ->
  extract_existing (pre ++ EXISTING_START ++ rest) = Ok (strip body).
Proof.
  intros rest Hstart Hend Hnext. unfold extract_existing.
  rewrite (py_split_second _ _ _ Hstart) by (vm_compute; lia).
  replace (drop (length pre + length EXISTING_START)
             (pre ++ EXISTING_START ++ rest)) with rest.
  2:{ rewrite app_assoc. symmetry. apply drop_app_length'.
      by rewrite length_app. }
  assert (take (length body) rest = body) as Hbody
    by (unfold rest; apply take_app_length).
  destruct (find_nat EXISTING_START rest) as [q |] eqn:Hq.
  - specialize (Hnext q eq_refl).
    rewrite (py_split_first (take q rest) EXISTING_END (length body)).
    + rewrite take_take.
      replace (length body `min` q)%nat with (length body) by lia.
      by rewrite Hbody.
    + by apply find_nat_take.
    + vm_compute; lia.
  - rewrite (py_split_first rest EXISTING_END (length body) Hend)
      by (vm_compute; lia).
    by rewrite Hbody.
Qed.

(** ** The retry loop, the log apart *)

Section LoopProps.
Context {T : Tokenizer} {E : Externals}.

Variables (env : environ) (prompt : str).
Variables (existing url : option str) (max_retries : Z) (regenerate : bool).

Abbreviation model := (generation_model env).1.
Abbreviation with_temperature := (create_args model prompt (Some (1 # 10)%Q)).
Abbreviation without_temperature := (create_args model prompt None).
Abbreviation attempt_of := (attempt_outcome env prompt existing url max_retries regenerate).
Abbreviation loop_of n := (loop_outcome n env prompt existing url max_retries regenerate).
Abbreviation returned_for r :=
  (if truthy_opt existing && negb regenerate
   then (default [] existing, url)
   else (response_json r, None)).

Lemma loop_outcome_step n attempt c :
  loop_of (S n) attempt c
  = match (attempt_of attempt c).1.1 with
    | Raise e => (Raise e, (attempt_of attempt c).1.2, (attempt_of attempt c).2)
    | Ok (Some returned) =>
        (Ok returned, (attempt_of attempt c).1.2, (attempt_of attempt c).2)
    | Ok None =>
        ((loop_of n (attempt + 1) (attempt_of attempt c).1.2).1.1,
         (loop_of n (attempt + 1) (attempt_of attempt c).1.2).1.2,
         (attempt_of attempt c).2
           ++ (loop_of n (attempt + 1) (attempt_of attempt c).1.2).2)
    end.
Proof. reflexivity. Qed.






(** A first answer that validates ends the run at once. *)
Lemma loop_outcome_first_valid n attempt c r :
  (create with_temperature c).1 = Ok r ->
  validation_outcome (response_json r) = Ok true ->
  loop_of (S n) attempt c
  = (Ok (if truthy_opt existing && negb regenerate
         then (default [] existing, url)
         else (response_json r, None)),
     (create with_temperature c).2,
     [(with_temperature, Ok r)]).
Proof.
  intros Hfirst Hvalid. rewrite loop_outcome_step.
  unfold attempt_outcome, response_outcome.
  rewrite Hfirst, Hvalid. done.
Qed.

(** The invocations of one attempt. *)
Lemma attempt_outcome_calls attempt c :
  attempt_calls model prompt (attempt_of attempt c).2.
Proof.
  unfold attempt_outcome.
  destruct (create with_temperature c) as [[r | e] c1]; cbn [fst snd].
  - by apply single_call.
  - destruct (classify e) eqn:Hclass; cbn [snd];
      try (apply single_call; intros e' [= <-]; congruence).
    by apply retried_call.
Qed.

(** The invocations of the loop, attempt by attempt. *)
Lemma loop_outcome_calls n attempt c :
  exists attempts : list (list invocation),
    (loop_of n attempt c).2 = concat attempts
    /\ Forall (attempt_calls model prompt) attempts
    /\ (length attempts <= n)%nat.
Proof.
  revert attempt c. induction n as [| n IH]; intros attempt c.
  - exists []. split_and!; [done | constructor | done].
  - rewrite loop_outcome_step.
    pose proof (attempt_outcome_calls attempt c) as Hthis.
    destruct (attempt_of attempt c).1.1 as [[returned |] | e]; cbn [snd].
    + exists [(attempt_of attempt c).2].
      split_and!; [by rewrite concat_cons, app_nil_r | by constructor |].
      simpl. lia.
    + destruct (IH (attempt + 1) (attempt_of attempt c).1.2)
        as (rest & -> & Hrest & Hlen).
      exists ((attempt_of attempt c).2 :: rest).
      split_and!; [done | by constructor | simpl; lia].
    + exists [(attempt_of attempt c).2].
      split_and!; [by rewrite concat_cons, app_nil_r | by constructor |].
      simpl. lia.
Qed.

Lemma loop_outcome_rejected n attempt c :
  always_rejected ->
  attempt + Z.of_nat n = max_retries ->
  (loop_of (S n) attempt c).1.1
  = Raise (ValueError VALIDATION_FAILURE_MSG)
  /\ length (loop_of (S n) attempt c).2 = S n
  /\ Forall (fun k => k.1 = with_temperature
                      /\ exists r, k.2 = Ok r
                           /\ validation_outcome (response_json r) = Ok false)
       (loop_of (S n) attempt c).2.
Proof.
  intros Hrej. unfold always_rejected in Hrej. revert attempt c.
  induction n as [| n IH]; intros attempt c Hattempt.
  - rewrite loop_outcome_step. unfold attempt_outcome.
    destruct (Hrej with_temperature c) as (r & Hr & Hv).
    rewrite Hr. unfold response_outcome, on_exception. rewrite Hv.
    replace (attempt =? max_retries) with true by (symmetry; lia).
    cbn [fst snd]. split_and!; [done | done |].
    constructor; [| constructor]. split; [done | by exists r].
  - rewrite loop_outcome_step.
    destruct (Hrej with_temperature c) as (r & Hr & Hv).
    assert (attempt_of attempt c
            = (Ok None, (create with_temperature c).2,
               [(with_temperature, Ok r)])) as ->.
    { unfold attempt_outcome. rewrite Hr.
      unfold response_outcome, on_exception. rewrite Hv.
      by replace (attempt =? max_retries) with false by (symmetry; lia). }
    cbn [fst snd].
    destruct (IH (attempt + 1) (create with_temperature c).2) as (H1 & H2 & H3);
      [lia |].
    split_and!.
    + done.
    + cbn [app length]. by rewrite H2.
    + constructor; [| done]. split; [done | by exists r].
Qed.

Lemma chained_app (c c1 c2 : client_state) (l1 l2 : list invocation) :
  chained c l1 c1 -> chained c1 l2 c2 -> chained c (l1 ++ l2) c2.
Proof.
  revert c. induction l1 as [| k l1 IH]; intros c; cbn [chained app].
  - by intros ->.
  - intros [Hk Hrest] Hl2. split; [done |]. by apply IH.
Qed.

Lemma accepted_raise (a : call_args) (e : exn) : ~ accepted (a, Raise e).
Proof. by intros (r & Hr & _). Qed.

Lemma accepted_ok (a : call_args) (r : response) :
  accepted (a, Ok r) <-> validation_outcome (response_json r) = Ok true.
Proof.
  split.
  - by intros (r' & [= <-] & Hv).
  - intros Hv. by exists r.
Qed.

(** What [response_outcome] makes of an answer: the attempt returns
    exactly when the validator accepts the answer; otherwise it raises on
    the last attempt and goes on to the next one before. *)
Lemma response_outcome_cases attempt r :
  match response_outcome existing url max_retries regenerate attempt r with
  | Ok (Some x) =>
      validation_outcome (response_json r) = Ok true /\ x = returned_for r
  | Ok None =>
      attempt <> max_retries
      /\ validation_outcome (response_json r) <> Ok true
  | Raise _ =>
      attempt = max_retries
      /\ validation_outcome (response_json r) <> Ok true
  end.
Proof.
  unfold response_outcome, on_exception.
  destruct (validation_outcome (response_json r)) as [[] | e]; [done | |];
    destruct (Z.eqb_spec attempt max_retries); done.
Qed.

(** One attempt: its calls are real calls of the client, in order; it
    returns exactly when its last call got an answer the validator
    accepts, raises only as the last attempt, and no call but the one it
    returns for got an accepted answer. *)
Lemma attempt_outcome_trace attempt c :
  chained c (attempt_of attempt c).2 (attempt_of attempt c).1.2
  /\ match (attempt_of attempt c).1.1 with
     | Ok (Some x) =>
         exists a r,
           last (attempt_of attempt c).2 = Some (a, Ok r)
           /\ validation_outcome (response_json r) = Ok true
           /\ x = returned_for r
     | Ok None =>
         attempt <> max_retries
         /\ ~ Exists accepted (attempt_of attempt c).2
     | Raise _ =>
         attempt = max_retries
         /\ ~ Exists accepted (attempt_of attempt c).2
     end.
Proof.
  unfold attempt_outcome.
  destruct (create with_temperature c) as [[r | e] c1] eqn:Hfirst;
    cbn [fst snd].
  - split; [by cbn [chained fst snd]; rewrite Hfirst |].
    pose proof (response_outcome_cases attempt r) as Hcases.
    assert (validation_outcome (response_json r) <> Ok true ->
            ~ Exists accepted [(with_temperature, Ok r)]) as Hrejected.
    { intros Hno Hex. apply Exists_cons in Hex as [Hex | Hex];
        [by apply accepted_ok in Hex | by apply Exists_nil in Hex]. }
    destruct (response_outcome existing url max_retries regenerate attempt r)
      as [[x |] | e]; destruct Hcases as [Hattempt Hno].
    + by exists with_temperature, r.
    + split; [done | by apply Hrejected].
    + split; [done | by apply Hrejected].
  - assert (chained c [(with_temperature, Raise e)] c1) as Hone
      by (by cbn [chained fst snd]; rewrite Hfirst).
    assert (~ Exists accepted [(with_temperature, @Raise response e)])
      as Hnone.
    { intros Hex. apply Exists_cons in Hex as [Hex | Hex];
        [by apply accepted_raise in Hex | by apply Exists_nil in Hex]. }
    destruct (classify e); cbn [fst snd].
    + split; [exact Hone |]. unfold on_exception.
      by destruct (Z.eqb_spec attempt max_retries).
    + split; [exact Hone |]. unfold on_exception.
      destruct (Z.ltb_spec attempt max_retries); [split; [lia | done] |].
      by destruct (Z.eqb_spec attempt max_retries).
    + destruct (create _ c1) as [[r | e'] c2] eqn:Hsecond;
        cbn [fst snd].
      * split; [by cbn [chained fst snd]; rewrite Hfirst; cbn [fst snd]; rewrite Hsecond |].
        pose proof (response_outcome_cases attempt r) as Hcases.
        assert (validation_outcome (response_json r) <> Ok true ->
                ~ Exists accepted
                    [(with_temperature, @Raise response e);
                     (without_temperature, Ok r)]) as Hrejected.
        { intros Hno Hex. apply Exists_cons in Hex as [Hex | Hex];
            [by apply accepted_raise in Hex |].
          apply Exists_cons in Hex as [Hex | Hex];
            [by apply accepted_ok in Hex | by apply Exists_nil in Hex]. }
        destruct (response_outcome existing url max_retries regenerate
                    attempt r) as [[x |] | e']; destruct Hcases as [Hattempt Hno].
        -- by exists without_temperature, r.
        -- split; [done | by apply Hrejected].
        -- split; [done | by apply Hrejected].
      * split; [by cbn [chained fst snd]; rewrite Hfirst; cbn [fst snd]; rewrite Hsecond |].
        assert (~ Exists accepted
                    [(with_temperature, @Raise response e);
                     (without_temperature, Raise e')]) as Hboth.
        { intros Hex. apply Exists_cons in Hex as [Hex | Hex];
            [by apply accepted_raise in Hex |].
          apply Exists_cons in Hex as [Hex | Hex];
            [by apply accepted_raise in Hex | by apply Exists_nil in Hex]. }
        unfold on_exception.
        by destruct (Z.eqb_spec attempt max_retries).
    + split; [exact Hone |]. unfold on_exception.
      by destruct (Z.eqb_spec attempt max_retries).
Qed.

Lemma last_app_nonempty {A} (l1 l2 : list A) (x : A) :
  last l2 = Some x -> last (l1 ++ l2) = Some x.
Proof. intros H. by rewrite last_app, H. Qed.

(** The loop: its calls are those of its attempts, real calls of the
    client in order; it makes at least one attempt when it has any; it
    returns exactly when its last call got an answer the validator
    accepts, and otherwise it raises after all its attempts, none of
    whose calls got an accepted answer. *)
Lemma loop_outcome_trace n attempt c :
  n = 0%nat \/ attempt + Z.of_nat n = max_retries + 1 ->
  exists attempts : list (list invocation),
    (loop_of n attempt c).2 = concat attempts
    /\ Forall (attempt_calls model prompt) attempts
    /\ chained c (loop_of n attempt c).2 (loop_of n attempt c).1.2
    /\ (n <> 0%nat -> attempts <> [])
    /\ (length attempts <= n)%nat
    /\ match (loop_of n attempt c).1.1 with
       | Ok x =>
           exists a r,
             last (loop_of n attempt c).2 = Some (a, Ok r)
             /\ validation_outcome (response_json r) = Ok true
             /\ x = returned_for r
       | Raise _ =>
           length attempts = n
           /\ ~ Exists accepted (loop_of n attempt c).2
       end.
Proof.
  revert attempt c. induction n as [| n IH]; intros attempt c Hn.
  - exists []. cbn [loop_outcome fst snd chained concat length].
    split_and!; [done | constructor | done | done | done | done |].
    by intros Hex; apply Exists_nil in Hex.
  - destruct Hn as [Hn | Hn]; [done |].
    rewrite loop_outcome_step.
    pose proof (attempt_outcome_calls attempt c) as Hcalls.
    destruct (attempt_outcome_trace attempt c) as [Hchain Hthis].
    destruct (attempt_of attempt c).1.1 as [[x |] | e]; cbn [fst snd].
    + exists [(attempt_of attempt c).2]. cbn [concat]. rewrite app_nil_r.
      split_and!; [done | by constructor | done | done | | done].
      cbn [length]. lia.
    + destruct Hthis as [Hattempt Hnone].
      destruct (IH (attempt + 1) (attempt_of attempt c).1.2)
        as (rest & Hrest & Hall & Hchained & Hnonempty & Hbound & Hresult).
      { destruct n; [by left | right; lia]. }
      exists ((attempt_of attempt c).2 :: rest). cbn [concat].
      split_and!.
      * by rewrite Hrest.
      * by constructor.
      * by eapply chained_app.
      * done.
      * cbn [length]. lia.
      * destruct (loop_of n (attempt + 1) (attempt_of attempt c).1.2).1.1
          as [x | e].
        -- destruct Hresult as (a & r & Hlast & Hvalid & Hx).
           exists a, r. split_and!; [| done | done].
           by apply last_app_nonempty.
        -- destruct Hresult as [Hlen Hno]. split; [by cbn [length]; rewrite Hlen |].
           intros Hex. apply Exists_app in Hex as [Hex | Hex]; tauto.
    + destruct Hthis as [Hattempt Hnone].
      exists [(attempt_of attempt c).2]. cbn [concat]. rewrite app_nil_r.
      split_and!; [done | by constructor | done | done | | | done];
        cbn [length]; lia.
Qed.

End LoopProps.

(** ** The orchestrator and the validator: the claims *)

Section OrchestratorProps.
Context {T : Tokenizer} {E : Externals}.

(** C8 (as amended): what the validator returns, raises and logs, for
    every text.  The schema file is read before the [try]: an exception of
    the read is raised.  Inside the [try], a [JSONDecodeError] gives
    [False] with the parse error and the head of the text logged, a
    [ValidationError] gives [False] with the message, the path, the schema
    path and the violated keyword logged, no exception gives [True], and
    any other exception of [json.loads] or [jsonschema.validate] is
    raised. *)
Theorem validate_devcontainer_json_verdict (text : str) (s : state) :
  let run := validate_devcontainer_json text s in
  let entered :=
    st_log s ++ [LogRecord INFO (lit "Validating devcontainer.json...")] in
  let started := entered ++ [LogRecord DEBUG (lit "Running validation...")] in
  let caught (e : exn) :=
    match e with
    | JSONDecodeError msg =>
        run.1 = Ok false
        /\ st_log run.2
           = started
               ++ [LogRecord ERROR (lit "JSON parsing failed: " ++ msg);
                   LogRecord ERROR (lit "Invalid JSON content: "
                                      ++ slice_to text 500)]
    | ValidationError _ message path schema_path validator =>
        run.1 = Ok false
        /\ exists more,
            st_log run.2
            = started
                ++ [LogRecord ERROR (lit "Schema validation failed: "
                                       ++ message);
                    LogRecord ERROR (lit "Failed at path: " ++ path);
                    LogRecord ERROR (lit "Schema path: " ++ schema_path);
                    LogRecord ERROR (lit "Validator: " ++ validator)]
                ++ more
    | _ => run.1 = Raise e /\ st_log run.2 = started
    end in
  match load_schema with
  | Raise e => run.1 = Raise e /\ st_log run.2 = entered
  | Ok schema =>
      match json_loads text with
      | Raise e => caught e
      | Ok parsed =>
          match jsonschema_validate parsed schema with
          | Raise e => caught e
          | Ok _ =>
              run.1 = Ok true
              /\ st_log run.2
                 = started ++ [LogRecord INFO (lit "Validation successful.")]
          end
      end
  end.
Proof.
  cbv zeta. unfold validate_devcontainer_json.
  unfold log, emit, of_result, try_except, raise.
  unfold mbind, M_bind, mret, M_ret.
  destruct load_schema as [schema | e];
    cbn [fst snd st_client st_calls st_log]; [| done].
  destruct (json_loads text) as [parsed | e] eqn:Hparsed.
  - destruct (jsonschema_validate parsed schema) as [[] | e] eqn:Hchecked.
    + cbn [fst snd st_log]. split; [done |]. by rewrite <- !app_assoc.
    + destruct e; cbn [fst snd st_client st_calls st_log];
        try (split; [done |]; by rewrite <- ?app_assoc).
      destruct (json_keys_repr parsed) as [keys | e'];
        [destruct (json_image_repr parsed) as [image |] |];
        cbn [fst snd st_client st_calls st_log];
        (split; [done |]); eexists; rewrite <- !app_assoc; cbn [app];
        reflexivity.
  - destruct e; cbn [fst snd st_client st_calls st_log];
      try (split; [done |]; by rewrite <- ?app_assoc).
    split; [done |]. eexists. rewrite <- !app_assoc. cbn [app]. reflexivity.
Qed.


(** C2 (as amended): a context with the start marker, no regeneration and
    a prior URL that is neither [None] nor empty: the orchestrator returns
    the text it extracts, the second part of the split at the start marker
    up to the first end marker in it, stripped, with that URL, and the
    client is not invoked.  The text is [body], stripped, when the context
    holds [body] between its first start marker and the end marker that
    follows it, with no other start marker before that end marker. *)
Theorem generate_uses_existing (env : environ)
    (repo_url repo_context u : str) (max_retries : Z) (s : state) :
  py_in EXISTING_START repo_context = true ->
  u <> [] ->
  let run :=
    generate_devcontainer_json env repo_url repo_context (Some u)
      max_retries false s in
  exists existing,
    extract_existing repo_context = Ok existing
    /\ run.1 = Ok (existing, Some u)
    /\ st_calls run.2 = st_calls s
    /\ st_client run.2 = st_client s
    /\ (forall pre body post,
          repo_context = pre ++ EXISTING_START ++ body ++ EXISTING_END ++ post ->
          find_nat EXISTING_START repo_context = Some (length pre) ->
          find_nat EXISTING_END (body ++ EXISTING_END ++ post)
          = Some (length body) ->
          (forall q,
              find_nat EXISTING_START (body ++ EXISTING_END ++ post) = Some q ->
              (length body + length EXISTING_END <= q)%nat) ->
          existing = strip body).
Proof.
  intros Hin Hu run.
  destruct (extract_existing_ok repo_context Hin) as [existing Hexisting].
  exists existing.
  destruct (generate_outcome_agrees env repo_url repo_context (Some u)
              max_retries false s) as (Hr & Hc & Hk).
  fold run in Hr, Hc, Hk. revert Hr Hc Hk.
  unfold generate_outcome. rewrite Hin, Hexisting.
  destruct u as [| a u]; [done |]. cbn [negb andb truthy_opt truthy fst snd].
  intros -> -> ->. rewrite app_nil_r. split_and!; [done | done | done | done |].
  intros pre body post -> Hstart Hend Hnext.
  rewrite (extract_existing_embedded pre body post Hstart Hend Hnext)
    in Hexisting.
  congruence.
Qed.

(** The run of the retry loop behind a call of the orchestrator that does
    not return the existing devcontainer at once. *)
Lemma generate_outcome_generation env repo_url repo_context url max_retries
    regenerate c :
  py_in EXISTING_START repo_context && negb regenerate && truthy_opt url
  = false ->
  exists existing,
    generate_outcome env repo_url repo_context url max_retries regenerate c
    = loop_outcome (Z.to_nat (max_retries + 1)) env
        (prompt_of repo_url repo_context existing) existing url max_retries
        regenerate 0 c
    /\ (existing = None /\ py_in EXISTING_START repo_context = false
        \/ exists text, existing = Some text
                        /\ py_in EXISTING_START repo_context = true
                        /\ extract_existing repo_context = Ok text).
Proof.
  intros Hno. unfold generate_outcome.
  destruct (py_in EXISTING_START repo_context) eqn:Hin.
  - destruct (extract_existing_ok repo_context Hin) as [text Htext].
    rewrite Htext. cbn [andb] in Hno. rewrite Hno.
    exists (Some text). split; [done |]. right. by exists text.
  - exists None. split; [done |]. by left.
Qed.

(** C1 (as amended): when every answer of the client is rejected by the
    validator, [max_retries] is 2 and the orchestrator does not return an
    existing devcontainer at once, it calls the client exactly three
    times, each time with the temperature, and then raises a [ValueError]
    with the fixed message [VALIDATION_FAILURE_MSG]. *)
Theorem generate_exhaustion (env : environ) (repo_url repo_context : str)
    (url : option str) (regenerate : bool) (s : state) :
  always_rejected ->
  py_in EXISTING_START repo_context && negb regenerate && truthy_opt url
  = false ->
  let run :=
    generate_devcontainer_json env repo_url repo_context url 2 regenerate s in
  run.1 = Raise (ValueError VALIDATION_FAILURE_MSG)
  /\ exists prompt r1 r2 r3,
      let args :=
        create_args (generation_model env).1 prompt (Some (1 # 10)%Q) in
      st_calls run.2
      = st_calls s ++ [(args, Ok r1); (args, Ok r2); (args, Ok r3)]
      /\ validation_outcome (response_json r1) = Ok false
      /\ validation_outcome (response_json r2) = Ok false
      /\ validation_outcome (response_json r3) = Ok false.
Proof.
  intros Hrejected Hno run.
  destruct (generate_outcome_agrees env repo_url repo_context url 2
              regenerate s) as (Hr & _ & Hk).
  fold run in Hr, Hk.
  destruct (generate_outcome_generation env repo_url repo_context url 2
              regenerate (st_client s) Hno) as (existing & Hgen & _).
  rewrite Hgen in Hr, Hk. change (Z.to_nat (2 + 1)) with 3%nat in Hr, Hk.
  destruct (loop_outcome_rejected env
              (prompt_of repo_url repo_context existing) existing url 2
              regenerate 2 0 (st_client s) Hrejected eq_refl)
    as (Hraise & Hlen & Hall).
  split; [by rewrite Hr |].
  exists (prompt_of repo_url repo_context existing).
  destruct (loop_outcome 3 env (prompt_of repo_url repo_context existing)
              existing url 2 regenerate 0 (st_client s)).2
    as [| [a1 o1] [| [a2 o2] [| [a3 o3] [| ? ?]]]]; try done.
  apply Forall_cons in Hall as [(Ha1 & r1 & Ho1 & Hv1) Hall].
  apply Forall_cons in Hall as [(Ha2 & r2 & Ho2 & Hv2) Hall].
  apply Forall_cons in Hall as [(Ha3 & r3 & Ho3 & Hv3) _].
  cbn [fst snd] in *. subst a1 a2 a3 o1 o2 o3.
  exists r1, r2, r3. by rewrite Hk.
Qed.

(** The failures the except chain answers by a call without the
    temperature: not an [AttributeError], no function-calling signature in
    the message, and one of the two temperature signatures in it. *)
Lemma classify_temperature (e : exn) :
  classify e = TemperatureFailure
  <-> (forall msg, e <> AttributeError msg)
      /\ is_tool_failure (exn_str e) = false
      /\ is_temperature_failure (exn_str e) = true.
Proof.
  unfold classify. split.
  - destruct e; try done;
      (destruct (is_tool_failure _) eqn:Htool; [done |]);
      (destruct (is_temperature_failure _) eqn:Htemp; [| done]);
      by intros _; split_and!.
  - intros (Hattr & Htool & Htemp).
    destruct e; [by destruct (Hattr msg) | ..]; by rewrite Htool, Htemp.
Qed.

(** C9 (as amended): a run that does not return the existing devcontainer
    at once makes the calls of its attempts, one after the other on the
    client: at least one attempt when [max_retries] is not negative, and
    all [max_retries + 1] when it raises; it returns only on an answer the
    validator accepts, that of its last call.  An attempt makes one call
    with the temperature; exactly when that call fails with an exception
    that is no [AttributeError], has no function-calling signature and has
    a temperature signature, the same attempt makes exactly one more call,
    without the temperature and with the same model, response model, retry
    count and messages. *)
Theorem generate_temperature_retry (env : environ)
    (repo_url repo_context : str) (url : option str) (max_retries : Z)
    (regenerate : bool) (s : state) :
  py_in EXISTING_START repo_context && negb regenerate && truthy_opt url
  = false ->
  let run :=
    generate_devcontainer_json env repo_url repo_context url max_retries
      regenerate s in
  (exists (prompt : str) (attempts : list (list invocation)),
      st_calls run.2 = st_calls s ++ concat attempts
      /\ chained (st_client s) (concat attempts) (st_client run.2)
      /\ Forall (attempt_calls (generation_model env).1 prompt) attempts
      /\ (0 <= max_retries -> attempts <> [])
      /\ (length attempts <= Z.to_nat (max_retries + 1))%nat
      /\ (forall e, run.1 = Raise e ->
                    length attempts = Z.to_nat (max_retries + 1)
                    /\ ~ Exists accepted (concat attempts))
      /\ (forall x, run.1 = Ok x ->
                    exists a r,
                      last (concat attempts) = Some (a, Ok r)
                      /\ validation_outcome (response_json r) = Ok true))
  /\ (forall e,
        classify e = TemperatureFailure
        <-> (forall msg, e <> AttributeError msg)
            /\ is_tool_failure (exn_str e) = false
            /\ is_temperature_failure (exn_str e) = true).
Proof.
  intros Hno run. split; [| apply classify_temperature].
  destruct (generate_outcome_agrees env repo_url repo_context url
              max_retries regenerate s) as (Hr & Hc & Hk).
  fold run in Hr, Hc, Hk.
  destruct (generate_outcome_generation env repo_url repo_context url
              max_retries regenerate (st_client s) Hno) as (existing & Hgen & _).
  rewrite Hgen in Hr, Hc, Hk.
  destruct (loop_outcome_trace env
              (prompt_of repo_url repo_context existing) existing url
              max_retries regenerate (Z.to_nat (max_retries + 1)) 0
              (st_client s))
    as (attempts & Hcalls & Hall & Hchain & Hnonempty & Hbound & Hresult);
    [destruct (Z.to_nat (max_retries + 1)) eqn:Hn; [by left | right; lia] |].
  exists (prompt_of repo_url repo_context existing), attempts.
  rewrite Hk, Hc, <- Hcalls. split_and!; [done | done | done | | done | |].
  - intros Hretries. apply Hnonempty. lia.
  - intros e He. rewrite Hr in He. by rewrite He in Hresult.
  - intros x Hx. rewrite Hr in Hx. rewrite Hx in Hresult.
    destruct Hresult as (a & r & Hlast & Hvalid & _). by exists a, r.
Qed.


End OrchestratorProps.

(** ** Runs on the test doubles *)

Lemma always_invalid_rejected : @always_rejected always_invalid.
Proof.
  intros args c. exists INVALID_JSON. split; [done |]. by vm_compute.
Qed.

(** Witness of C1 (as amended): three calls, then the fixed message. *)
Lemma generate_exhaustion_witness :
  (@generate_devcontainer_json char_tokenizer always_invalid ∅
     (lit "https://github.com/o/r") (lit "tree") None 2 false
     (@initial always_invalid 0%nat)).1
  = Raise (ValueError VALIDATION_FAILURE_MSG).
Proof.
  refine (proj1 (@generate_exhaustion char_tokenizer always_invalid ∅
                   (lit "https://github.com/o/r") (lit "tree") None false
                   (@initial always_invalid 0%nat) _ _)).
  - exact always_invalid_rejected.
  - reflexivity.
Defined.

(** Counterexample to C1: the client's answers all miss [image]; the last
    validation failure is logged with its message and schema path, and the
    error raised after the third attempt carries neither.  And with an
    existing devcontainer in the context and its URL given, the same client
    is not called at all. *)
Lemma generate_exhaustion_message_generic :
  let run :=
    @generate_devcontainer_json char_tokenizer always_invalid ∅
      (lit "https://github.com/o/r") (lit "tree") None 2 false
      (@initial always_invalid 0%nat) in
  let short :=
    @generate_devcontainer_json char_tokenizer always_invalid ∅
      (lit "https://github.com/o/r") CONTEXT_WITH_EXISTING
      (Some (lit "https://github.com/o/r/blob/main/.devcontainer/devcontainer.json"))
      2 false (@initial always_invalid 0%nat) in
  @jsonschema_validate always_invalid INVALID_JSON (lit "{}")
  = Raise (ValidationError (lit "'image' is a required property")
             (lit "'image' is a required property")
             (lit "[]") (lit "['required']") (lit "required"))
  /\ length (st_calls run.2) = 3%nat
  /\ (exists i,
        st_log run.2 !! i
        = Some (LogRecord ERROR
                  (lit "Schema validation failed: 'image' is a required property")))
  /\ (exists e,
      run.1 = Raise e
      /\ py_in (lit "'image' is a required property") (exn_str e) = false
      /\ py_in (lit "['required']") (exn_str e) = false
      /\ py_in (lit "image") (exn_str e) = false)
  /\ (exists returned, short.1 = Ok returned)
  /\ st_calls short.2 = [].
Proof.
  cbv zeta. split_and!.
  - by vm_compute.
  - by vm_compute.
  - exists 37%nat. by vm_compute.
  - eexists. split_and!; by vm_compute.
  - eexists. by vm_compute.
  - by vm_compute.
Qed.

(** Witness of C2 (as amended). *)
Lemma generate_uses_existing_witness :
  (@generate_devcontainer_json char_tokenizer always_valid ∅
     (lit "https://github.com/o/r") CONTEXT_WITH_EXISTING
     (Some (lit "https://github.com/o/r/blob/main/.devcontainer/devcontainer.json"))
     3 false (@initial always_valid 0%nat)).1
  = Ok (VALID_JSON,
        Some (lit "https://github.com/o/r/blob/main/.devcontainer/devcontainer.json")).
Proof.
  destruct (@generate_uses_existing char_tokenizer always_valid ∅
              (lit "https://github.com/o/r") CONTEXT_WITH_EXISTING
              (lit "https://github.com/o/r/blob/main/.devcontainer/devcontainer.json")
              3 (@initial always_valid 0%nat))
    as (existing & _ & -> & _ & _ & Hbody).
  - by vm_compute.
  - discriminate.
  - rewrite (Hbody (lit "tree" ++ LANGUAGES_MARK_NL)
               (lit " " ++ VALID_JSON ++ lit " ") []).
    + reflexivity.
    + by vm_compute.
    + by vm_compute.
    + by vm_compute.
    + intros q. vm_compute. discriminate.
Defined.

(** Counterexample to C2.  The prior URL is the empty string, which is not
    [None]: the orchestrator does not return at once and calls the client.
    And a context that quotes the start marker before the embedded
    devcontainer: what is returned, with the URL and without a call, is
    the text between the two start markers, not the embedded
    devcontainer. *)
Lemma generate_uses_existing_fails :
  let run :=
    @generate_devcontainer_json char_tokenizer always_valid ∅
      (lit "https://github.com/o/r") CONTEXT_WITH_EXISTING (Some []) 3 false
      (@initial always_valid 0%nat) in
  let quoting :=
    @generate_devcontainer_json char_tokenizer always_valid ∅
      (lit "https://github.com/o/r") CONTEXT_QUOTING_MARKER
      (Some (lit "https://github.com/o/r/blob/main/.devcontainer/devcontainer.json"))
      3 false (@initial always_valid 0%nat) in
  (extract_existing CONTEXT_WITH_EXISTING = Ok VALID_JSON
   /\ run.1 = Ok (VALID_JSON, Some [])
   /\ length (st_calls run.2) = 1%nat)
  /\ (quoting.1
      = Ok (lit "tags.",
            Some (lit "https://github.com/o/r/blob/main/.devcontainer/devcontainer.json"))
      /\ st_calls quoting.2 = []
      /\ lit "tags." <> VALID_JSON).
Proof. cbv zeta. split_and!; by vm_compute. Qed.



(** A run against a client that rejects the temperature: one attempt, two
    calls, the second without the temperature. *)
Example generate_temperature_retry_run :
  let run :=
    @generate_devcontainer_json char_tokenizer no_temperature ∅
      (lit "https://github.com/o/r") (lit "tree") None 3 false
      (@initial no_temperature 0%nat) in
  run.1 = Ok (VALID_JSON, None)
  /\ map (fun k => arg_temperature k.1) (st_calls run.2)
     = [Some (1 # 10)%Q; None].
Proof. cbv zeta. split; by vm_compute. Qed.

(** Counterexample to C8: without its schema file the validator raises the
    exception of the read, for a text that is valid JSON; and on a text of
    5000 digits, whose conversion raises a [ValueError] that is no
    [JSONDecodeError], it raises that [ValueError]. *)
Lemma validate_devcontainer_json_raises :
  (@validate_devcontainer_json schema_missing VALID_JSON
     (@initial schema_missing 0%nat)).1
  = Raise SCHEMA_NOT_FOUND
  /\ exists msg,
      (@validate_devcontainer_json digit_limit (repeat "1"%char 5000)
         (@initial digit_limit 0%nat)).1
      = Raise (ValueError msg).
Proof. split; [by vm_compute |]. eexists. by vm_compute. Qed.

(** Witness of C9 (as amended): a client that rejects the temperature. *)
Lemma generate_temperature_retry_witness :
  let run :=
    @generate_devcontainer_json char_tokenizer no_temperature ∅
      (lit "https://github.com/o/r") (lit "tree") None 3 false
      (@initial no_temperature 0%nat) in
  (exists (prompt : str) (attempts : list (list invocation)),
      st_calls run.2 = [] ++ concat attempts
      /\ @chained no_temperature 0%nat (concat attempts) (st_client run.2)
      /\ Forall (attempt_calls (generation_model ∅).1 prompt) attempts
      /\ (0 <= 3 -> attempts <> [])
      /\ (length attempts <= Z.to_nat (3 + 1))%nat
      /\ (forall e, run.1 = Raise e ->
                    length attempts = Z.to_nat (3 + 1)
                    /\ ~ Exists (@accepted no_temperature) (concat attempts))
      /\ (forall x, run.1 = Ok x ->
                    exists a r,
                      last (concat attempts) = Some (a, Ok r)
                      /\ @validation_outcome no_temperature
                           (@response_json no_temperature r) = Ok true))
  /\ (forall e,
        classify e = TemperatureFailure
        <-> (forall msg, e <> AttributeError msg)
            /\ is_tool_failure (exn_str e) = false
            /\ is_temperature_failure (exn_str e) = true).
Proof.
  apply (@generate_temperature_retry char_tokenizer no_temperature ∅
           (lit "https://github.com/o/r") (lit "tree") None 3 false
           (@initial no_temperature 0%nat)).
  by vm_compute.
Defined.

(** Counterexample to C9: a failure of the call that names the temperature
    is not retried without the temperature when its message has a
    function-calling signature as well, or when it is an
    [AttributeError]: the one attempt of each run makes one call, with the
    temperature, and the run raises. *)
Lemma generate_temperature_not_retried :
  let tool :=
    @generate_devcontainer_json char_tokenizer tool_and_temperature_failing ∅
      (lit "https://github.com/o/r") (lit "tree") None 0 false
      (@initial tool_and_temperature_failing 0%nat) in
  let attribute :=
    @generate_devcontainer_json char_tokenizer
      attribute_and_temperature_failing ∅
      (lit "https://github.com/o/r") (lit "tree") None 0 false
      (@initial attribute_and_temperature_failing 0%nat) in
  (is_temperature_failure (exn_str TOOL_AND_TEMPERATURE) = true
   /\ map (fun k => (arg_temperature k.1, k.2)) (st_calls tool.2)
      = [(Some (1 # 10)%Q, Raise TOOL_AND_TEMPERATURE)]
   /\ tool.1 = Raise (ValueError TOOL_FAILURE_MSG))
  /\ (is_temperature_failure (exn_str ATTRIBUTE_AND_TEMPERATURE) = true
      /\ map (fun k => (arg_temperature k.1, k.2)) (st_calls attribute.2)
         = [(Some (1 # 10)%Q, Raise ATTRIBUTE_AND_TEMPERATURE)]
      /\ attribute.1 = Raise ATTRIBUTE_AND_TEMPERATURE).
Proof. cbv zeta. split_and!; by vm_compute. Qed.

(** The run of the witness of C10: two rejected answers, then the
    embedded devcontainer. *)
Example generate_keeps_existing_run :
  let run :=
    @generate_devcontainer_json char_tokenizer third_time_valid ∅
      (lit "https://github.com/o/r") CONTEXT_WITH_EMBEDDED None 3 false
      (@initial third_time_valid 0%nat) in
  run.1 = Ok (EMBEDDED_JSON, None)
  /\ map snd (st_calls run.2) = [Ok INVALID_JSON; Ok INVALID_JSON; Ok VALID_JSON].
Proof. cbv zeta. split; by vm_compute. Qed.

(** * Further properties *)

(** ** Token budgeter *)

Section TokenBudgeterMore.
Context {T : Tokenizer}.

(** X4: a negative budget is not taken for zero: the result is the
    important content less its last [-B] tokens, decoded. *)
Theorem truncate_context_negative_budget (C : str) (B : Z) :
  B < 0 ->
  let important_tokens := encode (important_content C) in
  (truncate_context C B).1
  = decode (take (length important_tokens - Z.to_nat (- B)) important_tokens).
Proof.
  intros HB. cbv zeta. rewrite truncate_context_value.
  pose proof (len_nonneg (encode C)).
  pose proof (len_nonneg (encode (important_content C))).
  unfold ntokens.
  destruct (Z.leb_spec (len (encode C)) B); [lia |].
  destruct (Z.gtb_spec (len (encode (important_content C))) B); [| lia].
  unfold slice_to, slice_index.
  destruct (Z.ltb_spec B 0); [| lia].
  do 2 f_equal. lia.
Qed.

End TokenBudgeterMore.

Lemma truncate_context_negative_budget_witness :
  (@truncate_context char_tokenizer (lit "abcdef") (-2)).1
  = lit "abcde<<END_SECTION: Repository Languages >>".
Proof.
  rewrite (@truncate_context_negative_budget char_tokenizer (lit "abcdef") (-2)).
  - reflexivity.
  - lia.
Defined.

(** ** Provider selector *)

Lemma get_provider_in (env : environ) :
  In (get_provider env).1 SUPPORTED_PROVIDERS.
Proof.
  unfold get_provider.
  destruct (list_in _ SUPPORTED_PROVIDERS) eqn:Hin;
    cbn [negb fst mret Logged_ret mbind Logged_bind].
  - by apply list_in_In.
  - by left.
Qed.

(** An unset or unsupported [LLM_PROVIDER] resolves to AzureOpenAI. *)
Lemma get_provider_fallback (env : environ) :
  ~ In (default (lit "AzureOpenAI") (env !! lit "LLM_PROVIDER"))
      SUPPORTED_PROVIDERS ->
  (get_provider env).1 = lit "AzureOpenAI".
Proof.
  intros Hno. unfold get_provider.
  destruct (list_in _ SUPPORTED_PROVIDERS) eqn:Hin;
    cbn [negb fst mret Logged_ret mbind Logged_bind]; [| done].
  by apply list_in_In in Hin.
Qed.

Lemma get_provider_configured (env : environ) :
  In (default (lit "AzureOpenAI") (env !! lit "LLM_PROVIDER"))
     SUPPORTED_PROVIDERS ->
  (get_provider env).1 = default (lit "AzureOpenAI") (env !! lit "LLM_PROVIDER").
Proof.
  intros Hyes. unfold get_provider. apply list_in_In in Hyes. by rewrite Hyes.
Qed.

(** X5: every model that holds a listed model of the provider, or is held
    in one, is accepted, with an empty message: a listed name with a
    version suffix, and any fragment of a listed name as well. *)
Theorem validate_model_accepts_match (provider model listed : str)
    (models : list str) :
  valid_models !! provider = Some models ->
  In listed models ->
  py_in listed model = true \/ py_in model listed = true ->
  validate_model_for_provider model provider = (true, []).
Proof.
  intros Hmodels Hlisted Hmatch. unfold validate_model_for_provider.
  rewrite Hmodels. cbn [default from_option id].
  destruct models as [| first models]; [done |].
  replace (existsb _ (first :: models)) with true; [done |].
  symmetry. apply existsb_exists. exists listed. split; [done |].
  apply orb_true_iff. done.
Qed.

(** X6: a verdict of incompatibility comes with a message that names the
    model and the provider; a verdict of compatibility comes with the empty
    message; and a provider without a list accepts every model. *)
Theorem validate_model_message (model provider : str) :
  let verdict := validate_model_for_provider model provider in
  (verdict.1 = true -> verdict.2 = [])
  /\ (verdict.1 = false ->
      exists tail,
        verdict.2
        = lit "Model '" ++ model
            ++ lit "' may not be compatible with provider '" ++ provider
            ++ lit "'. " ++ tail)
  /\ (valid_models !! provider = None -> verdict = (true, [])).
Proof.
  cbv zeta. unfold validate_model_for_provider.
  destruct (valid_models !! provider) as [models |];
    cbn [default from_option id]; [| done].
  destruct models as [| first models]; [done |].
  destruct (existsb _ (first :: models)); cbn [fst snd].
  - done.
  - split_and!; [done | | done]. intros _. by eauto.
Qed.

Lemma defaults_compatible (provider : str) :
  In provider SUPPORTED_PROVIDERS ->
  let default_model := default (lit "gpt-4o-mini") (defaults !! provider) in
  (validate_model_for_provider default_model provider).1 = true
  /\ default_model <> [].
Proof.
  intros Hin. cbv zeta.
  repeat (destruct Hin as [<- | Hin]; [by vm_compute |]). done.
Qed.

(** X7: the model [get_default_model] returns is never empty and is always
    one that [validate_model_for_provider] accepts for the resolved
    provider. *)
Theorem get_default_model_compatible (env : environ) :
  (validate_model_for_provider (get_default_model env).1
     (get_provider env).1).1 = true
  /\ (get_default_model env).1 <> [].
Proof.
  rewrite get_default_model_value. cbv zeta.
  pose proof (defaults_compatible _ (get_provider_in env)) as [Hd Hne].
  cbv zeta in Hd, Hne.
  destruct (env !! lit "MODEL") as [model |]; [| done].
  destruct model as [| c model]; [done |]. cbn [truthy andb].
  destruct (validate_model_for_provider (c :: model) (get_provider env).1).1
    eqn:Hv; done.
Qed.

(** X8: the required variables are the five common ones followed by the
    credentials of the resolved provider, which are never missing: those of
    AzureOpenAI when [LLM_PROVIDER] is unset or unsupported. *)
Theorem get_required_env_vars_shape (env : environ) :
  let common :=
    [lit "MODEL"; lit "GITHUB_TOKEN"; lit "SUPABASE_URL"; lit "SUPABASE_KEY";
     lit "LLM_PROVIDER"] in
  exists credentials,
    (get_required_env_vars env).1 = common ++ credentials
    /\ credentials <> []
    /\ (~ In (default (lit "AzureOpenAI") (env !! lit "LLM_PROVIDER"))
          SUPPORTED_PROVIDERS ->
        credentials
        = [lit "AZURE_OPENAI_ENDPOINT"; lit "AZURE_OPENAI_API_KEY";
           lit "AZURE_OPENAI_API_VERSION"]).
Proof.
  cbv zeta. unfold get_required_env_vars.
  unfold mbind, Logged_bind, mret, Logged_ret. cbn [fst].
  eexists. split; [reflexivity |]. split.
  - pose proof (get_provider_in env) as Hin.
    repeat (destruct Hin as [<- | Hin]; [by vm_compute |]). done.
  - intros Hno. by rewrite (get_provider_fallback env Hno).
Qed.

(** X9: [supports_embeddings] is false exactly when [LLM_PROVIDER] is set
    to Anthropic, Google or Groq; it is true for AzureOpenAI and OpenAI,
    and also when the variable is unset or holds an unsupported name. *)
Theorem supports_embeddings_spec (env : environ) :
  (supports_embeddings env).1 = false
  <-> In (default (lit "AzureOpenAI") (env !! lit "LLM_PROVIDER"))
        [lit "Anthropic"; lit "Google"; lit "Groq"].
Proof.
  unfold supports_embeddings.
  unfold mbind, Logged_bind, mret, Logged_ret. cbn [fst].
  set (configured := default (lit "AzureOpenAI") (env !! lit "LLM_PROVIDER")).
  destruct (decide (In configured SUPPORTED_PROVIDERS)) as [Hyes | Hno].
  - rewrite (get_provider_configured env Hyes). fold configured.
    destruct Hyes as [<- | [<- | [<- | [<- | [<- | []]]]]]; vm_compute;
      intuition discriminate.
  - rewrite (get_provider_fallback env Hno). split; [by vm_compute |].
    intros Hin. exfalso. apply Hno. simpl. simpl in Hin. tauto.
Qed.

(** Witness of X5: an OpenAI model name with a date suffix. *)
Lemma validate_model_accepts_match_witness :
  validate_model_for_provider (lit "gpt-4o-2024-08-06") (lit "OpenAI")
  = (true, []).
Proof.
  apply (validate_model_accepts_match (lit "OpenAI") (lit "gpt-4o-2024-08-06")
           (lit "gpt-4o")
           [lit "gpt-4o"; lit "gpt-4o-mini"; lit "gpt-4-turbo"; lit "gpt-4";
            lit "gpt-3.5-turbo"]).
  - by vm_compute.
  - by left.
  - left. by vm_compute.
Defined.

(** ** The embedded devcontainer *)

(** Without a separator the split has one part, the text itself. *)
Lemma py_split_none (s sep : str) :
  find_nat sep s = None -> py_split s sep = [s].
Proof.
  intros Hnone. unfold py_split.
  destruct (length s); cbn [split_fuel]; by rewrite ?Hnone.
Qed.

(** X18: the guard of the orchestrator is exactly what the extraction
    needs.  With the start marker in the context, taking the second part of
    the first split and the first part of the second cannot raise; without
    it the split has one part and the indexing raises an [IndexError]. *)
Theorem extract_existing_guard (repo_context : str) :
  (py_in EXISTING_START repo_context = true ->
   exists existing, extract_existing repo_context = Ok existing)
  /\ (py_in EXISTING_START repo_context = false ->
      extract_existing repo_context
      = Raise (IndexError (lit "list index out of range"))).
Proof.
  split; [apply extract_existing_ok |].
  unfold py_in, extract_existing.
  destruct (find_nat EXISTING_START repo_context) as [i |] eqn:Hfind;
    [done |].
  intros _. by rewrite (py_split_none _ _ Hfind).
Qed.

(** X19: when no end marker follows the start marker, and no second start
    marker, the existing devcontainer is taken to be all that follows the
    start marker, stripped. *)
Theorem extract_existing_without_end (pre rest : str) :
  find_nat EXISTING_START (pre ++ EXISTING_START ++ rest) = Some (length pre) ->
  find_nat EXISTING_START rest = None ->
  find_nat EXISTING_END rest = None ->
  extract_existing (pre ++ EXISTING_START ++ rest) = Ok (strip rest).
Proof.
  intros Hstart Hnext Hend. unfold extract_existing.
  rewrite (py_split_second _ _ _ Hstart) by (vm_compute; lia).
  replace (drop (length pre + length EXISTING_START)
             (pre ++ EXISTING_START ++ rest)) with rest.
  2:{ rewrite app_assoc. symmetry. apply drop_app_length'.
      by rewrite length_app. }
  rewrite Hnext, (py_split_none rest EXISTING_END Hend). done.
Qed.

(** X20: a second start marker ends the existing devcontainer as an end
    marker does: when it comes before any end marker, the text between the
    two start markers, stripped, is what is extracted. *)
Theorem extract_existing_second_start (pre body post : str) :
  let rest := body ++ EXISTING_START ++ post in
  find_nat EXISTING_START (pre ++ EXISTING_START ++ rest) = Some (length pre) ->
  find_nat EXISTING_START rest = Some (length body) ->
  find_nat EXISTING_END body = None ->
  extract_existing (pre ++ EXISTING_START ++ rest) = Ok (strip body).
Proof.
  intros rest Hstart Hnext Hend. unfold extract_existing.
  rewrite (py_split_second _ _ _ Hstart) by (vm_compute; lia).
  replace (drop (length pre + length EXISTING_START)
             (pre ++ EXISTING_START ++ rest)) with rest.
  2:{ rewrite app_assoc. symmetry. apply drop_app_length'.
      by rewrite length_app. }
  rewrite Hnext. unfold rest. rewrite take_app_length.
  by rewrite (py_split_none body EXISTING_END Hend).
Qed.

Lemma extract_existing_without_end_witness :
  extract_existing (lit "tree " ++ EXISTING_START ++ lit " {} ")
  = Ok (lit "{}").
Proof.
  apply (extract_existing_without_end (lit "tree ") (lit " {} "));
    by vm_compute.
Defined.

Lemma extract_existing_second_start_witness :
  extract_existing
    (lit "tree " ++ EXISTING_START ++ lit " {} " ++ EXISTING_START
       ++ lit "x" ++ EXISTING_END)
  = Ok (lit "{}").
Proof.
  apply (extract_existing_second_start (lit "tree ") (lit " {} ")
           (lit "x" ++ EXISTING_END)); by vm_compute.
Defined.

(** ** The retry loop when every attempt fails *)

Section LoopFailures.
Context {T : Tokenizer} {E : Externals}.

Variables (env : environ) (prompt : str).
Variables (existing url : option str) (max_retries : Z) (regenerate : bool).

Abbreviation model := (generation_model env).1.
Abbreviation with_temperature := (create_args model prompt (Some (1 # 10)%Q)).
Abbreviation attempt_of := (attempt_outcome env prompt existing url max_retries regenerate).
Abbreviation loop_of n := (loop_outcome n env prompt existing url max_retries regenerate).

(** When every attempt makes one call, with the temperature, and fails
    with [final], the loop uses up its attempts and raises [final]. *)
Lemma loop_outcome_all_fail (final : exn) (n : nat) (attempt : Z)
    (c : client_state) :
  (forall attempt c,
      exists outcome,
        attempt_of attempt c
        = (on_exception max_retries attempt final, (create with_temperature c).2,
           [(with_temperature, outcome)])) ->
  attempt + Z.of_nat n = max_retries ->
  (loop_of (S n) attempt c).1.1 = Raise final
  /\ length (loop_of (S n) attempt c).2 = S n
  /\ Forall (fun k => k.1 = with_temperature) (loop_of (S n) attempt c).2.
Proof.
  intros Hfail. revert attempt c.
  induction n as [| n IH]; intros attempt c Hattempt;
    rewrite loop_outcome_step;
    destruct (Hfail attempt c) as [outcome ->]; unfold on_exception;
    cbn [fst snd].
  - replace (attempt =? max_retries) with true by (symmetry; lia).
    split_and!; [done | done |]. by repeat constructor.
  - replace (attempt =? max_retries) with false by (symmetry; lia).
    cbn [fst snd app length].
    destruct (IH (attempt + 1) (create with_temperature c).2) as (H1 & H2 & H3);
      [lia |].
    split_and!; [done | |].
    + by rewrite H2.
    + by constructor.
Qed.

(** Concatenated attempts make at most two calls each. *)
Lemma attempt_calls_length (m p : str) (attempts : list (list invocation)) :
  Forall (attempt_calls m p) attempts ->
  (length (concat attempts) <= 2 * length attempts)%nat.
Proof.
  induction 1 as [| calls attempts Hcalls _ IH]; [done |].
  rewrite concat_cons, length_app. cbn [length].
  destruct Hcalls; cbn [length]; lia.
Qed.

Lemma attempt_calls_model (m p : str) (attempts : list (list invocation)) :
  Forall (attempt_calls m p) attempts ->
  Forall (fun k => arg_model k.1 = m) (concat attempts).
Proof.
  induction 1 as [| calls attempts Hcalls _ IH]; [constructor |].
  rewrite concat_cons. apply Forall_app. split; [| done].
  destruct Hcalls; by repeat constructor.
Qed.

End LoopFailures.

(** ** The orchestrator: further properties *)

Section OrchestratorMore.
Context {T : Tokenizer} {E : Externals}.

(** X10: a run makes at most two provider calls for each of its
    [max_retries + 1] attempts. *)
Theorem generate_call_bound (env : environ) (repo_url repo_context : str)
    (url : option str) (max_retries : Z) (regenerate : bool) (s : state) :
  let run :=
    generate_devcontainer_json env repo_url repo_context url max_retries
      regenerate s in
  (length (st_calls run.2)
   <= length (st_calls s) + 2 * Z.to_nat (max_retries + 1))%nat.
Proof.
  intros run.
  destruct (generate_outcome_agrees env repo_url repo_context url
              max_retries regenerate s) as (_ & _ & Hk).
  fold run in Hk. rewrite Hk, length_app. clear Hk.
  apply Nat.add_le_mono_l. unfold generate_outcome.
  assert (forall existing,
             (length (loop_outcome (Z.to_nat (max_retries + 1)) env
                        (prompt_of repo_url repo_context existing) existing
                        url max_retries regenerate 0 (st_client s)).2
              <= 2 * Z.to_nat (max_retries + 1))%nat) as Hloop.
  { intros existing.
    destruct (loop_outcome_calls env
                (prompt_of repo_url repo_context existing) existing url
                max_retries regenerate (Z.to_nat (max_retries + 1)) 0
                (st_client s)) as (attempts & -> & Hall & Hlen).
    pose proof (attempt_calls_length _ _ _ Hall). lia. }
  destruct (py_in EXISTING_START repo_context); [| by apply Hloop].
  destruct (extract_existing repo_context) as [existing | e];
    [| cbn [snd length]; lia].
  destruct (negb regenerate && truthy_opt url);
    [cbn [snd length]; lia | by apply Hloop].
Qed.

(** X11: with a negative [max_retries] the loop has no iteration: unless
    the existing devcontainer is returned at once, the orchestrator raises
    the [ValueError] that follows the loop and the client is not called. *)
Theorem generate_negative_retries (env : environ)
    (repo_url repo_context : str) (url : option str) (max_retries : Z)
    (regenerate : bool) (s : state) :
  max_retries < 0 ->
  py_in EXISTING_START repo_context && negb regenerate && truthy_opt url
  = false ->
  let run :=
    generate_devcontainer_json env repo_url repo_context url max_retries
      regenerate s in
  run.1 = Raise (ValueError EXHAUSTED_MSG)
  /\ st_calls run.2 = st_calls s
  /\ st_client run.2 = st_client s.
Proof.
  intros Hneg Hno run.
  destruct (generate_outcome_agrees env repo_url repo_context url
              max_retries regenerate s) as (Hr & Hc & Hk).
  fold run in Hr, Hc, Hk.
  destruct (generate_outcome_generation env repo_url repo_context url
              max_retries regenerate (st_client s) Hno) as (existing & Hgen & _).
  rewrite Hgen in Hr, Hc, Hk.
  replace (Z.to_nat (max_retries + 1)) with 0%nat in Hr, Hc, Hk by lia.
  cbn [loop_outcome fst snd] in Hr, Hc, Hk. by rewrite app_nil_r in Hk.
Qed.

(** What a run that goes through the retry loop and fails in every attempt
    with [final] comes to. *)
Lemma generate_all_fail (final : exn) (env : environ)
    (repo_url repo_context : str) (url : option str) (max_retries : Z)
    (regenerate : bool) (s : state) :
  (forall prompt existing attempt c,
      exists outcome,
        attempt_outcome env prompt existing url max_retries regenerate
          attempt c
        = (on_exception max_retries attempt final,
           (create (create_args (generation_model env).1 prompt
                      (Some (1 # 10)%Q)) c).2,
           [(create_args (generation_model env).1 prompt (Some (1 # 10)%Q),
             outcome)])) ->
  0 <= max_retries ->
  py_in EXISTING_START repo_context && negb regenerate && truthy_opt url
  = false ->
  let run :=
    generate_devcontainer_json env repo_url repo_context url max_retries
      regenerate s in
  run.1 = Raise final
  /\ exists calls,
      st_calls run.2 = st_calls s ++ calls
      /\ length calls = Z.to_nat (max_retries + 1)
      /\ Forall (fun k => arg_temperature k.1 = Some (1 # 10)%Q) calls.
Proof.
  intros Hfail Hretries Hno run.
  destruct (generate_outcome_agrees env repo_url repo_context url
              max_retries regenerate s) as (Hr & _ & Hk).
  fold run in Hr, Hk.
  destruct (generate_outcome_generation env repo_url repo_context url
              max_retries regenerate (st_client s) Hno) as (existing & Hgen & _).
  rewrite Hgen in Hr, Hk.
  replace (Z.to_nat (max_retries + 1)) with (S (Z.to_nat max_retries))
    in * by lia.
  destruct (loop_outcome_all_fail env
              (prompt_of repo_url repo_context existing) existing url
              max_retries regenerate final (Z.to_nat max_retries) 0
              (st_client s)) as (Hraise & Hlen & Hall);
    [by intros; apply Hfail | lia |].
  split; [by rewrite Hr |]. eexists. split_and!; [exact Hk | done |].
  eapply Forall_impl; [exact Hall |]. by intros k ->.
Qed.

(** X12: when every provider call fails with a function-calling failure,
    the orchestrator calls the client [max_retries + 1] times, each time
    with the temperature, and then raises a [ValueError] with the fixed
    message [TOOL_FAILURE_MSG]. *)
Theorem generate_tool_failure_exhaustion (env : environ)
    (repo_url repo_context : str) (url : option str) (max_retries : Z)
    (regenerate : bool) (s : state) :
  (forall args c,
      exists e, (create args c).1 = Raise e /\ classify e = ToolFailure) ->
  0 <= max_retries ->
  py_in EXISTING_START repo_context && negb regenerate && truthy_opt url
  = false ->
  let run :=
    generate_devcontainer_json env repo_url repo_context url max_retries
      regenerate s in
  run.1 = Raise (ValueError TOOL_FAILURE_MSG)
  /\ exists calls,
      st_calls run.2 = st_calls s ++ calls
      /\ length calls = Z.to_nat (max_retries + 1)
      /\ Forall (fun k => arg_temperature k.1 = Some (1 # 10)%Q) calls.
Proof.
  intros Htool. apply generate_all_fail.
  intros prompt existing attempt c. unfold attempt_outcome.
  match goal with
  | |- context [create ?a c] => destruct (Htool a c) as (e & He & Hclass)
  end.
  rewrite He, Hclass. eexists. f_equal. f_equal. unfold on_exception.
  destruct (Z.ltb_spec attempt max_retries) as [Hlt | Hge]; [| done].
  by replace (attempt =? max_retries) with false by (symmetry; lia).
Qed.

(** X13: an exception of the provider call that is neither a
    function-calling nor a temperature failure, an [AttributeError]
    included, does not end the run before the last attempt: when every call
    raises [e], the orchestrator calls the client [max_retries + 1] times
    and then raises [e] itself. *)
Theorem generate_fatal_error_retried (e : exn) (env : environ)
    (repo_url repo_context : str) (url : option str) (max_retries : Z)
    (regenerate : bool) (s : state) :
  (forall args c, (create args c).1 = Raise e) ->
  classify e = AttributeFailure \/ classify e = OtherFailure ->
  0 <= max_retries ->
  py_in EXISTING_START repo_context && negb regenerate && truthy_opt url
  = false ->
  let run :=
    generate_devcontainer_json env repo_url repo_context url max_retries
      regenerate s in
  run.1 = Raise e
  /\ exists calls,
      st_calls run.2 = st_calls s ++ calls
      /\ length calls = Z.to_nat (max_retries + 1)
      /\ Forall (fun k => arg_temperature k.1 = Some (1 # 10)%Q) calls.
Proof.
  intros Hraise Hclass. apply generate_all_fail.
  intros prompt existing attempt c. unfold attempt_outcome.
  rewrite Hraise. eexists. by destruct Hclass as [-> | ->].
Qed.

(** X14: when the schema file cannot be read, every answer of the client
    counts as a failed attempt: the orchestrator calls the client
    [max_retries + 1] times and then raises the exception of the read. *)
Theorem generate_schema_unreadable (e : exn) (env : environ)
    (repo_url repo_context : str) (url : option str) (max_retries : Z)
    (regenerate : bool) (s : state) :
  load_schema = Raise e ->
  (forall args c, exists r, (create args c).1 = Ok r) ->
  0 <= max_retries ->
  py_in EXISTING_START repo_context && negb regenerate && truthy_opt url
  = false ->
  let run :=
    generate_devcontainer_json env repo_url repo_context url max_retries
      regenerate s in
  run.1 = Raise e
  /\ exists calls,
      st_calls run.2 = st_calls s ++ calls
      /\ length calls = Z.to_nat (max_retries + 1)
      /\ Forall (fun k => arg_temperature k.1 = Some (1 # 10)%Q) calls.
Proof.
  intros Hschema Hanswers. apply generate_all_fail.
  intros prompt existing attempt c. unfold attempt_outcome.
  match goal with
  | |- context [create ?a c] => destruct (Hanswers a c) as (r & Hr)
  end.
  rewrite Hr. unfold response_outcome, validation_outcome. rewrite Hschema.
  by eexists.
Qed.


(** X16: when [MODEL] is set and not empty, every provider call of a run
    carries it as the model, whether or not it is compatible with the
    provider. *)
Theorem generate_calls_use_model (env : environ) (m : str)
    (repo_url repo_context : str) (url : option str) (max_retries : Z)
    (regenerate : bool) (s : state) :
  env !! lit "MODEL" = Some m ->
  m <> [] ->
  let run :=
    generate_devcontainer_json env repo_url repo_context url max_retries
      regenerate s in
  exists calls,
    st_calls run.2 = st_calls s ++ calls
    /\ Forall (fun k => arg_model k.1 = m) calls.
Proof.
  intros Hm Hne run.
  assert ((generation_model env).1 = m) as Hmodel.
  { unfold generation_model. rewrite Hm. by destruct m. }
  destruct (generate_outcome_agrees env repo_url repo_context url
              max_retries regenerate s) as (_ & _ & Hk).
  fold run in Hk. eexists. split; [exact Hk |]. unfold generate_outcome.
  assert (forall existing,
             Forall (fun k => arg_model k.1 = m)
               (loop_outcome (Z.to_nat (max_retries + 1)) env
                  (prompt_of repo_url repo_context existing) existing url
                  max_retries regenerate 0 (st_client s)).2) as Hloop.
  { intros existing.
    destruct (loop_outcome_calls env
                (prompt_of repo_url repo_context existing) existing url
                max_retries regenerate (Z.to_nat (max_retries + 1)) 0
                (st_client s)) as (attempts & -> & Hall & _).
    rewrite <- Hmodel. by eapply attempt_calls_model. }
  destruct (py_in EXISTING_START repo_context); [| by apply Hloop].
  destruct (extract_existing repo_context) as [existing | e];
    [| by constructor].
  destruct (negb regenerate && truthy_opt url);
    [by constructor | by apply Hloop].
Qed.

(** The loop after [n] rejected answers and one accepted. *)
Lemma loop_outcome_after_rejections (env : environ) (prompt : str)
    (existing url : option str) (max_retries : Z) (regenerate : bool)
    (n m : nat) (attempt : Z) (c c' : client_state) (r : response) :
  let args := create_args (generation_model env).1 prompt (Some (1 # 10)%Q) in
  rejected_chain args n c c' ->
  (create args c').1 = Ok r ->
  validation_outcome (response_json r) = Ok true ->
  attempt + Z.of_nat n <= max_retries ->
  let out :=
    loop_outcome (S (n + m)) env prompt existing url max_retries regenerate
      attempt c in
  out.1.1 = Ok (if truthy_opt existing && negb regenerate
                then (default [] existing, url)
                else (response_json r, None))
  /\ out.1.2 = (create args c').2
  /\ length out.2 = S n
  /\ last out.2 = Some (args, Ok r).
Proof.
  intros args. revert attempt c.
  induction n as [| n IH]; intros attempt c Hchain Hr Hvalid Hattempt out.
  - cbn [rejected_chain] in Hchain. subst c' out. cbn [Nat.add].
    rewrite (loop_outcome_first_valid env prompt existing url max_retries
               regenerate m attempt c r Hr Hvalid).
    by cbn [fst snd].
  - cbn [rejected_chain] in Hchain.
    destruct Hchain as (r0 & Hr0 & Hv0 & Hchain).
    subst out. cbn [Nat.add]. rewrite loop_outcome_step.
    assert (attempt_outcome env prompt existing url max_retries regenerate
              attempt c
            = (Ok None, (create args c).2, [(args, Ok r0)])) as ->.
    { unfold attempt_outcome. fold args. rewrite Hr0.
      unfold response_outcome, on_exception. rewrite Hv0.
      by replace (attempt =? max_retries) with false by (symmetry; lia). }
    cbn [fst snd].
    destruct (IH (attempt + 1) (create args c).2 Hchain Hr Hvalid)
      as (H1 & H2 & H3 & H4); [lia |].
    split_and!; [done | done | |].
    + cbn [app length]. by rewrite H3.
    + cbn [app]. rewrite last_cons, H4. done.
Qed.

(** X17: when the first [n] answers of the client are rejected by the
    validator and the next one is accepted, and [n] is at most
    [max_retries], the orchestrator returns the accepted text with a
    [None] URL after exactly [n + 1] provider calls, for a context without
    an embedded devcontainer. *)
Theorem generate_retry_then_success (env : environ)
    (repo_url repo_context : str) (url : option str) (max_retries : Z)
    (regenerate : bool) (s : state) (n : nat) (c' : client_state)
    (r : response) :
  let args :=
    create_args (generation_model env).1
      (prompt_of repo_url repo_context None) (Some (1 # 10)%Q) in
  py_in EXISTING_START repo_context = false ->
  rejected_chain args n (st_client s) c' ->
  (create args c').1 = Ok r ->
  validation_outcome (response_json r) = Ok true ->
  Z.of_nat n <= max_retries ->
  let run :=
    generate_devcontainer_json env repo_url repo_context url max_retries
      regenerate s in
  run.1 = Ok (response_json r, None)
  /\ exists calls,
      st_calls run.2 = st_calls s ++ calls
      /\ length calls = S n
      /\ last calls = Some (args, Ok r).
Proof.
  intros args Hin Hchain Hr Hvalid Hn run.
  destruct (generate_outcome_agrees env repo_url repo_context url
              max_retries regenerate s) as (Hres & _ & Hk).
  fold run in Hres, Hk. revert Hres Hk. unfold generate_outcome. rewrite Hin.
  replace (Z.to_nat (max_retries + 1))
    with (S (n + (Z.to_nat max_retries - n))) by lia.
  destruct (loop_outcome_after_rejections env
              (prompt_of repo_url repo_context None) None url max_retries
              regenerate n (Z.to_nat max_retries - n) 0 (st_client s) c' r
              Hchain Hr Hvalid) as (H1 & _ & H3 & H4); [lia |].
  intros Hres Hk. split; [by rewrite Hres, H1 |].
  eexists. by split_and!; [exact Hk | |].
Qed.

End OrchestratorMore.

(** ** Preflight and client set-up *)

Lemma filter_nil_Forall {A} (f : A -> bool) (l : list A) :
  List.filter f l = [] <-> Forall (fun x => f x = false) l.
Proof.
  induction l as [| x l IH]; cbn [List.filter].
  - split; [constructor | done].
  - destruct (f x) eqn:Hx.
    + split; [done |]. intros H. apply Forall_cons in H as [H _]. congruence.
    + rewrite IH. split; [by constructor |].
      intros H. by apply Forall_cons in H as [_ H].
Qed.

(** X21: the preflight check passes exactly when every required variable
    is set to a non-empty value; it prints nothing when it passes and one
    line when it fails. *)
Theorem check_env_vars_spec (env : environ) :
  let checked := (check_env_vars env).1 in
  (checked.1 = true
   <-> Forall (fun var => truthy_opt (env !! var) = true)
         (get_required_env_vars env).1)
  /\ (checked.1 = true -> checked.2 = [])
  /\ (checked.1 = false -> exists line, checked.2 = [line]).
Proof.
  cbv zeta. unfold check_env_vars. unfold mbind, Logged_bind. cbn [fst].
  destruct (List.filter _ (get_required_env_vars env).1) as [| var missing]
    eqn:Hmissing; unfold mret, Logged_ret; cbn [fst snd].
  - split_and!; [| done | done]. split; [intros _ | done].
    apply filter_nil_Forall in Hmissing.
    eapply Forall_impl; [exact Hmissing |]. intros x Hx.
    by apply negb_false_iff.
  - split_and!; [| done | by eauto]. split; [done |]. intros Hall.
    assert (List.filter (fun var => negb (truthy_opt (env !! var)))
              (get_required_env_vars env).1 = []) as Hnil.
    { apply filter_nil_Forall. eapply Forall_impl; [exact Hall |].
      intros x Hx. by apply negb_false_iff. }
    congruence.
Qed.

Lemma required_has_model_and_provider (env : environ) :
  In (lit "MODEL") (get_required_env_vars env).1
  /\ In (lit "LLM_PROVIDER") (get_required_env_vars env).1.
Proof.
  unfold get_required_env_vars. unfold mbind, Logged_bind, mret, Logged_ret.
  cbn [fst]. split; apply in_or_app; left; simpl; tauto.
Qed.

(** A check that passes has found every required variable set. *)
Lemma check_env_vars_passed (env : environ) (var : str) :
  (check_env_vars env).1.1 = true ->
  In var (get_required_env_vars env).1 ->
  truthy_opt (env !! var) = true.
Proof.
  intros Hpass Hin. unfold check_env_vars in Hpass.
  unfold mbind, Logged_bind in Hpass. cbn [fst] in Hpass.
  destruct (List.filter _ (get_required_env_vars env).1) as [| v missing]
    eqn:Hmissing; [| done].
  apply filter_nil_Forall in Hmissing.
  rewrite List.Forall_forall in Hmissing.
  apply negb_false_iff. by apply Hmissing.
Qed.

(** X22: the preflight check fails when [LLM_PROVIDER] or [MODEL] is unset
    or empty, although [get_provider] and [get_default_model] have a
    default for each. *)
Theorem check_env_vars_needs_provider_and_model (env : environ) :
  truthy_opt (env !! lit "LLM_PROVIDER") = false
  \/ truthy_opt (env !! lit "MODEL") = false ->
  (check_env_vars env).1.1 = false.
Proof.
  intros Hunset.
  destruct (check_env_vars env).1.1 eqn:Hpass; [| done].
  destruct (required_has_model_and_provider env) as [Hmodel Hprovider].
  pose proof (check_env_vars_passed env _ Hpass Hmodel).
  pose proof (check_env_vars_passed env _ Hpass Hprovider).
  destruct Hunset; congruence.
Qed.

(** X23: after a preflight check that passes, the model of the provider
    calls is the value of [MODEL] itself: [get_default_model] is not
    consulted and nothing is logged about the model. *)
Theorem check_env_vars_then_model (env : environ) :
  (check_env_vars env).1.1 = true ->
  exists m, env !! lit "MODEL" = Some m
            /\ m <> []
            /\ generation_model env = (m, []).
Proof.
  intros Hpass.
  destruct (required_has_model_and_provider env) as [Hmodel _].
  pose proof (check_env_vars_passed env _ Hpass Hmodel) as Hset.
  unfold generation_model.
  destruct (env !! lit "MODEL") as [m |]; [| done].
  destruct m as [| c m]; [done |]. by exists (c :: m).
Qed.

Section ClientSetupProps.
Context {K : Sdk}.

Ltac eval_setup :=
  repeat progress
    (lazy beta iota zeta delta
       [setup_client setup_llm_client setup_instructor setup_azure_openai
        setup_openai setup_anthropic setup_google setup_groq
        mbind Setup_bind mret Setup_ret setup_try setup_log setup_call
        setup_logged setup_raise];
     cbn [fst snd]).

Ltac eval_str_eqb :=
  repeat match goal with
    | |- context [str_eqb (lit ?a) (lit ?b)] =>
        let v := eval vm_compute in (str_eqb (lit a) (lit b)) in
        change (str_eqb (lit a) (lit b)) with v
    | |- context [list_in (lit ?a) ?l] =>
        let v := eval vm_compute in (list_in (lit a) l) in
        change (list_in (lit a) l) with v
    end; cbv beta iota.

Ltac case_result :=
  match goal with
  | |- context [match instructor_patch ?c ?m with _ => _ end] =>
      destruct (instructor_patch c m)
  | |- context [match instructor_from_anthropic ?c with _ => _ end] =>
      destruct (instructor_from_anthropic c)
  | |- context [match instructor_from_gemini ?c ?m with _ => _ end] =>
      destruct (instructor_from_gemini c m)
  end; cbn [fst snd].

(** The value of [setup_client]: the last branch of its dispatch, the
    [ValueError], is dead. *)
Lemma setup_client_value (env : environ) :
  setup_client env
  = ((if str_eqb (get_provider env).1 (lit "AzureOpenAI")
      then setup_azure_openai env
      else if str_eqb (get_provider env).1 (lit "OpenAI")
           then setup_openai env
      else if str_eqb (get_provider env).1 (lit "Anthropic")
           then setup_anthropic env
      else if str_eqb (get_provider env).1 (lit "Google")
           then setup_google env
      else setup_groq env).1,
     (get_provider env).2
       ++ LogRecord INFO (lit "Initializing LLM provider: "
                            ++ (get_provider env).1)
       :: (if str_eqb (get_provider env).1 (lit "AzureOpenAI")
           then setup_azure_openai env
           else if str_eqb (get_provider env).1 (lit "OpenAI")
                then setup_openai env
           else if str_eqb (get_provider env).1 (lit "Anthropic")
                then setup_anthropic env
           else if str_eqb (get_provider env).1 (lit "Google")
                then setup_google env
           else setup_groq env).2).
Proof.
  unfold setup_client.
  repeat progress
    (lazy beta iota zeta delta
       [mbind Setup_bind setup_log setup_logged setup_raise];
     cbn [fst snd app]).
  pose proof (get_provider_in env) as Hin.
  repeat (destruct Hin as [<- | Hin]; [eval_str_eqb; reflexivity |]).
  done.
Qed.

Ltac case_sdk :=
  match goal with
  | |- context [match import_openai with _ => _ end] => destruct import_openai
  | |- context [match import_anthropic with _ => _ end] =>
      destruct import_anthropic
  | |- context [match import_genai with _ => _ end] => destruct import_genai
  | |- context [match import_groq with _ => _ end] => destruct import_groq
  | |- context [match new_AzureOpenAI ?a ?b ?c with _ => _ end] =>
      destruct (new_AzureOpenAI a b c)
  | |- context [match new_OpenAI ?a with _ => _ end] =>
      destruct (new_OpenAI a)
  | |- context [match new_Anthropic ?a with _ => _ end] =>
      destruct (new_Anthropic a)
  | |- context [match new_Groq ?a with _ => _ end] => destruct (new_Groq a)
  | |- context [match genai_configure ?a with _ => _ end] =>
      destruct (genai_configure a)
  | |- context [match new_GenerativeModel ?a with _ => _ end] =>
      destruct (new_GenerativeModel a)
  end; cbn [fst snd].

(** X24: [setup_client] never reaches its own [ValueError] for an
    unsupported provider: after the records of [get_provider] and one INFO
    record that names the resolved provider, it runs the set-up of that
    provider, that of AzureOpenAI when [LLM_PROVIDER] is unset or
    unsupported. *)
Theorem setup_client_dispatch (env : environ) :
  let provider := (get_provider env).1 in
  let chosen :=
    if str_eqb provider (lit "AzureOpenAI") then setup_azure_openai env
    else if str_eqb provider (lit "OpenAI") then setup_openai env
    else if str_eqb provider (lit "Anthropic") then setup_anthropic env
    else if str_eqb provider (lit "Google") then setup_google env
    else setup_groq env in
  setup_client env
  = (chosen.1,
     (get_provider env).2
       ++ LogRecord INFO (lit "Initializing LLM provider: " ++ provider)
       :: chosen.2)
  /\ (~ In (default (lit "AzureOpenAI") (env !! lit "LLM_PROVIDER"))
         SUPPORTED_PROVIDERS ->
      (setup_client env).1 = (setup_azure_openai env).1).
Proof.
  cbv zeta. split; [apply setup_client_value |].
  intros Hno. rewrite setup_client_value. cbn [fst].
  by rewrite (get_provider_fallback env Hno).
Qed.

(** X25: [setup_instructor] never reaches its branch for an unknown
    provider.  AzureOpenAI and OpenAI are patched in the default mode,
    Anthropic and Google through their own entry points, and Groq in TOOLS
    mode with JSON mode as the fall-back when TOOLS mode raises. *)
Theorem setup_instructor_dispatch (env : environ) (client : llm_client) :
  let provider := (get_provider env).1 in
  (setup_instructor env client).1
  = if list_in provider [lit "AzureOpenAI"; lit "OpenAI"]
    then instructor_patch client None
    else if str_eqb provider (lit "Groq")
    then match instructor_patch client (Some TOOLS) with
         | Ok patched => Ok patched
         | Raise _ => instructor_patch client (Some JSON)
         end
    else if str_eqb provider (lit "Anthropic")
    then instructor_from_anthropic client
    else instructor_from_gemini client GEMINI_JSON.
Proof.
  cbv zeta. unfold setup_instructor.
  pose proof (get_provider_in env) as Hin.
  eval_setup.
  repeat (destruct Hin as [<- | Hin];
          [eval_str_eqb; eval_setup;
           repeat case_result; reflexivity |]).
  done.
Qed.

(** X26: a client set-up that raises has logged the failure: the last
    record is an ERROR that names the resolved provider, by the name its
    set-up function uses in its messages, and carries the text of the
    exception that is raised.  A set-up that returns a client has logged no
    ERROR. *)
Theorem setup_llm_client_failure_logged (env : environ) :
  match (setup_llm_client env).1 with
  | Raise e =>
      last (setup_llm_client env).2
      = Some (LogRecord ERROR
                (lit "Failed to initialize "
                   ++ provider_display_name (get_provider env).1
                   ++ lit " client: " ++ exn_str e))
  | Ok _ =>
      Forall (fun record => lr_level record <> ERROR) (setup_llm_client env).2
  end.
Proof.
  unfold setup_llm_client, provider_display_name.
  rewrite setup_client_value. cbn [fst snd].
  assert (Forall (fun record => lr_level record <> ERROR) (get_provider env).2)
    as Hprov.
  { unfold get_provider.
    destruct (negb _);
      unfold mbind, Logged_bind, mret, Logged_ret, logging; cbn [fst snd app];
      repeat constructor; done. }
  pose proof (get_provider_in env) as Hin.
  repeat (destruct Hin as [<- | Hin]; [eval_str_eqb |]); [.. | done].
  all: eval_setup.
  all: repeat case_sdk.
  all: try (cbn [app]; apply Forall_app; split; [exact Hprov |];
            repeat constructor; done).
  all: rewrite last_app; cbn [app last]; rewrite !app_assoc; reflexivity.
Qed.

(** X27: an instructor set-up that raises has logged the failure: the last
    record is an ERROR with the text of the exception that is raised, which
    for Groq is that of the JSON-mode attempt.  A set-up that returns a
    client has logged no ERROR, also when TOOLS mode failed for Groq. *)
Theorem setup_instructor_failure_logged (env : environ) (client : llm_client) :
  match (setup_instructor env client).1 with
  | Raise e =>
      last (setup_instructor env client).2
      = Some (LogRecord ERROR
                (lit "Failed to setup instructor client: " ++ exn_str e))
  | Ok _ =>
      Forall (fun record => lr_level record <> ERROR)
        (setup_instructor env client).2
  end.
Proof.
  assert (Forall (fun record => lr_level record <> ERROR) (get_provider env).2)
    as Hprov.
  { unfold get_provider.
    destruct (negb _);
      unfold mbind, Logged_bind, mret, Logged_ret, logging; cbn [fst snd app];
      repeat constructor; done. }
  pose proof (get_provider_in env) as Hin.
  unfold setup_instructor. eval_setup.
  repeat (destruct Hin as [<- | Hin]; [eval_str_eqb; eval_setup |]);
    [.. | done].
  all: repeat case_result.
  all: cbn [app].
  all: try (constructor; [done |]; apply Forall_app; split; [exact Hprov |];
            repeat constructor; done).
  all: rewrite last_cons, last_app; cbn [app last]; reflexivity.
Qed.

End ClientSetupProps.

(** ** Further runs on the test doubles *)

(** Witness of X11: no attempt for [max_retries = -1]. *)
Lemma generate_negative_retries_witness :
  (@generate_devcontainer_json char_tokenizer always_valid ∅
     (lit "https://github.com/o/r") (lit "tree") None (-1) false
     (@initial always_valid 0%nat)).1
  = Raise (ValueError EXHAUSTED_MSG).
Proof.
  refine (proj1 (@generate_negative_retries char_tokenizer always_valid ∅
                   (lit "https://github.com/o/r") (lit "tree") None (-1) false
                   (@initial always_valid 0%nat) _ _)).
  - lia.
  - by vm_compute.
Defined.

(** Witness of X12: three failed calls, then the fixed message. *)
Lemma generate_tool_failure_exhaustion_witness :
  (@generate_devcontainer_json char_tokenizer tool_failing ∅
     (lit "https://github.com/o/r") (lit "tree") None 2 false
     (@initial tool_failing 0%nat)).1
  = Raise (ValueError TOOL_FAILURE_MSG).
Proof.
  refine (proj1 (@generate_tool_failure_exhaustion char_tokenizer tool_failing
                   ∅ (lit "https://github.com/o/r") (lit "tree") None 2 false
                   (@initial tool_failing 0%nat) _ _ _)).
  - intros args c. eexists. split; [reflexivity | by vm_compute].
  - lia.
  - by vm_compute.
Defined.

(** Witness of X13: the [AttributeError] is raised after the third call. *)
Lemma generate_fatal_error_retried_witness :
  let run :=
    @generate_devcontainer_json char_tokenizer attribute_failing ∅
      (lit "https://github.com/o/r") (lit "tree") None 2 false
      (@initial attribute_failing 0%nat) in
  run.1
  = Raise (AttributeError (lit "'NoneType' object has no attribute 'chat'"))
  /\ exists calls,
      st_calls run.2 = [] ++ calls
      /\ length calls = 3%nat
      /\ Forall (fun k => arg_temperature k.1 = Some (1 # 10)%Q) calls.
Proof.
  refine (@generate_fatal_error_retried char_tokenizer attribute_failing
            (AttributeError (lit "'NoneType' object has no attribute 'chat'"))
            ∅ (lit "https://github.com/o/r") (lit "tree") None 2 false
            (@initial attribute_failing 0%nat) _ _ _ _).
  - reflexivity.
  - left. reflexivity.
  - lia.
  - by vm_compute.
Defined.

(** Witness of X14: the schema file is missing. *)
Lemma generate_schema_unreadable_witness :
  (@generate_devcontainer_json char_tokenizer schema_missing ∅
     (lit "https://github.com/o/r") (lit "tree") None 2 false
     (@initial schema_missing 0%nat)).1
  = Raise SCHEMA_NOT_FOUND.
Proof.
  refine (proj1 (@generate_schema_unreadable char_tokenizer schema_missing
                   SCHEMA_NOT_FOUND ∅ (lit "https://github.com/o/r")
                   (lit "tree") None 2 false (@initial schema_missing 0%nat)
                   _ _ _ _)).
  - reflexivity.
  - intros args c. by eexists.
  - lia.
  - by vm_compute.
Defined.


(** Witness of X16: a model set in the environment. *)
Lemma generate_calls_use_model_witness :
  let run :=
    @generate_devcontainer_json char_tokenizer always_valid OPENAI_ENV
      (lit "https://github.com/o/r") (lit "tree") None 3 false
      (@initial always_valid 0%nat) in
  exists calls,
    st_calls run.2 = [] ++ calls
    /\ Forall (fun k => arg_model k.1 = lit "gpt-4o") calls.
Proof.
  refine (@generate_calls_use_model char_tokenizer always_valid OPENAI_ENV
            (lit "gpt-4o") (lit "https://github.com/o/r") (lit "tree") None 3
            false (@initial always_valid 0%nat) _ _).
  - by vm_compute.
  - discriminate.
Defined.

(** Witness of X17: two rejected answers, then an accepted one. *)
Lemma generate_retry_then_success_witness :
  (@generate_devcontainer_json char_tokenizer third_time_valid ∅
     (lit "https://github.com/o/r") (lit "tree") None 3 false
     (@initial third_time_valid 0%nat)).1
  = Ok (VALID_JSON, None).
Proof.
  refine (proj1 (@generate_retry_then_success char_tokenizer third_time_valid
                   ∅ (lit "https://github.com/o/r") (lit "tree") None 3 false
                   (@initial third_time_valid 0%nat) 2 2%nat VALID_JSON
                   _ _ _ _ _)).
  - by vm_compute.
  - cbn [rejected_chain]. eexists. split_and!; [reflexivity | by vm_compute |].
    eexists. split_and!; [reflexivity | by vm_compute | reflexivity].
  - reflexivity.
  - by vm_compute.
  - lia.
Defined.

(** Witness of X22: nothing is set. *)
Lemma check_env_vars_needs_provider_and_model_witness :
  (check_env_vars ∅).1.1 = false.
Proof.
  apply check_env_vars_needs_provider_and_model. left. by vm_compute.
Defined.

(** Witness of X23: everything OpenAI requires is set. *)
Lemma check_env_vars_then_model_witness :
  exists m, OPENAI_ENV !! lit "MODEL" = Some m
            /\ m <> []
            /\ generation_model OPENAI_ENV = (m, []).
Proof. apply check_env_vars_then_model. by vm_compute. Defined.

(** A set-up without credentials: the constructor raises, the failure is
    logged last and the exception is raised again. *)
Example setup_llm_client_run :
  let run := @setup_llm_client stub_sdk ∅ in
  run.1 = Raise (OtherException
                   (lit "Missing credentials. Please pass one of `api_key`, `azure_ad_token`, `azure_ad_token_provider`"))
  /\ map lr_level run.2 = [INFO; INFO; ERROR].
Proof. cbv zeta. split; by vm_compute. Qed.

(** A Groq client is patched in JSON mode once TOOLS mode has raised, with
    one warning. *)
Example setup_instructor_run :
  let run :=
    @setup_instructor stub_sdk {[ lit "LLM_PROVIDER" := lit "Groq" ]}
      (lit "Groq") in
  run.1 = Ok (lit "Groq", Some JSON)
  /\ map lr_level run.2 = [INFO; INFO; WARNING].
Proof. cbv zeta. split; by vm_compute. Qed.
